(** * OpenAI -> NVIDIA NIM proxy: a shallow embedding of [server.js]

    The development follows the final listing of [server.js]: the static
    model table and its lookup, the streaming path (line reassembly and
    per-line event rewriting inside the ["data"] callback, the ["end"] and
    ["error"] callbacks) and the non-streaming path with its [catch] block.

    Texts are [string]s, a text being held as its UTF-8 encoding.  Every
    character the code inspects (the newline, the prefix ["data:"], the
    marker ["[DONE]"]) is ASCII, so reading a text as the sequence of its
    bytes or of its code units makes no difference for [split],
    [startsWith], [includes] and [slice(5)]. *)

From Stdlib Require Import String Ascii List Bool ZArith.
From Stdlib Require Import Numbers.DecimalString.
From Stdlib Require Import Lia.
Import ListNotations.
Local Open Scope list_scope.
Local Open Scope string_scope.

Set Warnings "-register-all".

Set Implicit Arguments.

(* ------------------------------------------------------------------ *)
(** ** String primitives of the host language *)

Module JSString.

Definition newline : ascii := "010"%char.

(** [s.startsWith(p)] *)
Fixpoint startsWith (p s : string) : bool :=
  match p, s with
  | EmptyString, _ => true
  | String a p', String b s' => if Ascii.eqb a b then startsWith p' s' else false
  | String _ _, EmptyString => false
  end.

(** [s.includes(p)] *)
Fixpoint includes (p s : string) : bool :=
  startsWith p s ||
  match s with
  | EmptyString => false
  | String _ s' => includes p s'
  end.

(** [s.slice(n)] for a non-negative [n] *)
Fixpoint slice (n : nat) (s : string) : string :=
  match n, s with
  | O, _ => s
  | S n', String _ s' => slice n' s'
  | S _, EmptyString => EmptyString
  end.

(** [s.split("\n")]: never empty; the last element is what follows the
    last newline. *)
Fixpoint split (s : string) : list string :=
  match s with
  | EmptyString => [EmptyString]
  | String c s' =>
      if Ascii.eqb c newline then EmptyString :: split s'
      else match split s' with
           | h :: t => String c h :: t
           | [] => [String c EmptyString]
           end
  end.

(** [a.pop()]: the last element ([None] for [undefined] on an empty
    array) and the array that is left. *)
Definition pop (a : list string) : option string * list string :=
  match rev a with
  | [] => (None, [])
  | x :: r => (Some x, rev r)
  end.

(** [x || ""] for [x] a string or [undefined] *)
Definition or_empty (x : option string) : string :=
  match x with
  | Some (String c s) => String c s
  | Some EmptyString | None => EmptyString
  end.

(** The predicate "holds no newline". *)
Fixpoint no_newline (s : string) : bool :=
  match s with
  | EmptyString => true
  | String c s' => negb (Ascii.eqb c newline) && no_newline s'
  end.

(** [N] lines, each followed by its newline. *)
Fixpoint terminated (ls : list string) : string :=
  match ls with
  | [] => EmptyString
  | l :: ls' => l ++ String newline (terminated ls')
  end.

(** Concatenation of a list of texts. *)
Fixpoint concat (ts : list string) : string :=
  match ts with
  | [] => EmptyString
  | t :: ts' => t ++ concat ts'
  end.

End JSString.

(* ------------------------------------------------------------------ *)
(** ** Completions: a value or a thrown exception *)

Inductive result (A : Type) : Type :=
| Ok (a : A)
| Throw.
Arguments Ok {A} a.
Arguments Throw {A}.

Definition bind {A B : Type} (r : result A) (k : A -> result B) : result B :=
  match r with
  | Ok a => k a
  | Throw => Throw
  end.

Notation "x <- r ;; k" := (bind r (fun x => k))
  (at level 61, r at next level, right associativity).

Fixpoint mapM {A B : Type} (f : A -> result B) (l : list A) : result (list B) :=
  match l with
  | [] => Ok []
  | a :: l' => b <- f a ;; bs <- mapM f l' ;; Ok (b :: bs)
  end.

(* ------------------------------------------------------------------ *)
(** ** Values of the host language that the proxy handles

    What [JSON.parse] returns, and what the handler's one assignment
    ([parsed.choices[0].delta = ...]) can turn it into.  A number is kept
    opaque.  An object is its list of own properties in property order.  An
    array has its elements and, because an array is an object too, the named
    properties assigned to it ([JSON.parse] creates none).  [undefined] is
    not a value of this type: a read that may give [undefined] returns an
    [option], with [None] for [undefined]. *)

Section Values.

Variable number : Type.

Inductive value : Type :=
| VNull
| VBool (b : bool)
| VNum (n : number)
| VStr (s : string)
| VArr (elems : list value) (props : list (string * value))
| VObj (fields : list (string * value)).

(** Own-property lookup in a property list. *)
Fixpoint assoc (A : Type) (k : string) (fs : list (string * A)) : option A :=
  match fs with
  | [] => None
  | (k', v) :: fs' => if String.eqb k k' then Some v else assoc k fs'
  end.

(** Own-property assignment: an existing property keeps its place, a new
    one goes last. *)
Fixpoint assoc_set (A : Type) (k : string) (v : A) (fs : list (string * A))
  : list (string * A) :=
  match fs with
  | [] => [(k, v)]
  | (k', v') :: fs' =>
      if String.eqb k k' then (k, v) :: fs' else (k', v') :: assoc_set k v fs'
  end.

(** [x == null], for [x] a value or [undefined]. *)
Definition nullish (x : option value) : bool :=
  match x with
  | None | Some VNull => true
  | Some _ => false
  end.

(** [v.name] for [v] neither [null] nor [undefined] and [name] one of the
    property names the proxy reads ([choices], [delta], [content],
    [reasoning_content], [index], [message], [finish_reason], [usage]):
    none of them is on a prototype, so a primitive gives [undefined]. *)
Definition get_own (v : value) (name : string) : option value :=
  match v with
  | VObj fs => assoc name fs
  | VArr _ props => assoc name props
  | VNull | VBool _ | VNum _ | VStr _ => None
  end.

(** [v[0]] for [v] neither [null] nor [undefined]. *)
Definition get_first (v : value) : option value :=
  match v with
  | VArr (e :: _) _ => Some e
  | VArr [] _ => None
  | VObj fs => assoc "0" fs
  | VStr (String c _) => Some (VStr (String c EmptyString))
  | VStr EmptyString => None
  | VNull | VBool _ | VNum _ => None
  end.

(** [x.name]: a [TypeError] when [x] is [null] or [undefined]. *)
Definition get (x : option value) (name : string) : result (option value) :=
  match x with
  | None | Some VNull => Throw
  | Some v => Ok (get_own v name)
  end.

(** [x[0]]: a [TypeError] when [x] is [null] or [undefined]. *)
Definition first (x : option value) : result (option value) :=
  match x with
  | None | Some VNull => Throw
  | Some v => Ok (get_first v)
  end.

(** [x?.name] *)
Definition get_opt (x : option value) (name : string) : option value :=
  match x with
  | None | Some VNull => None
  | Some v => get_own v name
  end.

(** [x?.[0]] *)
Definition first_opt (x : option value) : option value :=
  match x with
  | None | Some VNull => None
  | Some v => get_first v
  end.

(** [x ?? d] *)
Definition coalesce (x : option value) (d : value) : value :=
  match x with
  | None | Some VNull => d
  | Some v => v
  end.

(** [x.name = d] in a module (strict code): a [TypeError] when [x] is
    [null], [undefined] or a primitive; otherwise the object after the
    assignment. *)
Definition set_own (x : option value) (name : string) (d : value)
  : result value :=
  match x with
  | Some (VObj fs) => Ok (VObj (assoc_set name d fs))
  | Some (VArr es props) => Ok (VArr es (assoc_set name d props))
  | Some (VNull | VBool _ | VNum _ | VStr _) | None => Throw
  end.

(** The container [v] after its element [v[0]], which exists and is an
    object, was updated in place to [e']. *)
Definition with_first (v e' : value) : value :=
  match v with
  | VArr (_ :: es) props => VArr (e' :: es) props
  | VObj fs => VObj (assoc_set "0" e' fs)
  | _ => v
  end.

(** The object [v] after the object held in its property [name] was
    updated in place to [c']. *)
Definition with_own (v : value) (name : string) (c' : value) : value :=
  match v with
  | VObj fs => VObj (assoc_set name c' fs)
  | VArr es props => VArr es (assoc_set name c' props)
  | _ => v
  end.

End Values.

Arguments VNull {number}.
Arguments VBool {number} b.
Arguments VStr {number} s.

(** What the proxy takes from its runtime: the decoding of a chunk, the two
    conversions of a number, and the JSON codec. *)
Class Runtime : Type := {
  number : Type;
  Buffer : Type;
  (** [chunk.toString()] *)
  Buffer_toString : Buffer -> string;
  (** [Boolean(n)] for a number: false for zero and NaN *)
  number_truthy : number -> bool;
  (** [String(n)] for a number *)
  Number_toString : number -> string;
  (** [JSON.parse(text)]; [None] when it throws a [SyntaxError] *)
  JSON_parse : string -> option (value number);
  (** [JSON.stringify(v)] *)
  JSON_stringify : value number -> string
}.

Section Conversions.

Context {rt : Runtime}.

Local Abbreviation jsvalue := (value number).

(** [Boolean(v)] *)
Definition ToBoolean (v : jsvalue) : bool :=
  match v with
  | VNull => false
  | VBool b => b
  | VNum n => number_truthy n
  | VStr EmptyString => false
  | VStr (String _ _) => true
  | VArr _ _ | VObj _ => true
  end.

(** [String(v)], as a template literal applies it.  An array joins its
    elements with commas ([null] as the empty text).  A parsed object has
    no callable [toString] of its own: with an own [toString] property the
    conversion finds no method that returns a primitive and throws;
    without one the inherited method answers ["[object Object]"].  The
    named properties of an array play no part: the only one ever assigned
    is [delta]. *)
Fixpoint ToString (v : jsvalue) : result string :=
  match v with
  | VNull => Ok "null"
  | VBool true => Ok "true"
  | VBool false => Ok "false"
  | VNum n => Ok (Number_toString n)
  | VStr s => Ok s
  | VArr es _ =>
      (fix join (l : list jsvalue) : result string :=
         match l with
         | [] => Ok ""
         | e :: l' =>
             s <- match e with VNull => Ok "" | _ => ToString e end ;;
             match l' with
             | [] => Ok s
             | _ :: _ => r <- join l' ;; Ok (s ++ "," ++ r)
             end
         end) es
  | VObj fs =>
      match assoc "toString" fs with
      | Some _ => Throw
      | None => Ok "[object Object]"
      end
  end.

(** [String(x)] for [x] a value or [undefined]. *)
Definition ToString_opt (x : option jsvalue) : result string :=
  match x with
  | None => Ok "undefined"
  | Some v => ToString v
  end.

End Conversions.

(* ------------------------------------------------------------------ *)
(** ** Model table and its lookup *)

Module ModelMapper.

Definition MODEL_MAPPING : list (string * string) :=
  [ ("gpt-3.5-turbo", "nvidia/llama-3.1-nemotron-ultra-253b-v1");
    ("gpt-4", "deepseek-ai/deepseek-v3.2");
    ("gpt-4-turbo", "moonshotai/kimi-k2-instruct-0905");
    ("gpt-4o", "moonshotai/kimi-k2.5");
    ("claude-3-opus", "z-ai/glm4.7");
    ("claude-3-sonnet", "openai/gpt-oss-20b");
    ("gemini-pro", "z-ai/glm5") ].

Definition FALLBACK_MODEL : string := "meta/llama-3.1-8b-instruct".

(** [MODEL_MAPPING] is written as an object literal, so it inherits from
    [Object.prototype]; these are the names defined there. *)
Definition Object_prototype : list string :=
  [ "constructor"; "hasOwnProperty"; "isPrototypeOf";
    "propertyIsEnumerable"; "toLocaleString"; "toString"; "valueOf";
    "__proto__"; "__defineGetter__"; "__defineSetter__";
    "__lookupGetter__"; "__lookupSetter__" ].

(** What [table[key]] finds: an own entry, or a member inherited from
    [Object.prototype] (a function, or for [__proto__] the prototype
    object itself). *)
Inductive property : Type :=
| Own (s : string)
| Inherited (name : string).

Definition mem (k : string) (l : list string) : bool :=
  existsb (String.eqb k) l.

(** [table[key]] for a string [key]; [None] for [undefined]. *)
Definition lookup (table : list (string * string)) (key : string)
  : option property :=
  match assoc key table with
  | Some s => Some (Own s)
  | None => if mem key Object_prototype then Some (Inherited key) else None
  end.

(** What the handler binds to [nimModel]: an upstream identifier, or a
    built-in member of [Object.prototype]. *)
Inductive model_ref : Type :=
| Identifier (s : string)
| Builtin (name : string).

(** [table[model] || fallback]: the empty text and [undefined] are falsy,
    functions and objects are truthy. *)
Definition resolve (table : list (string * string)) (fallback model : string)
  : model_ref :=
  match lookup table model with
  | Some (Own (String c s)) => Identifier (String c s)
  | Some (Own EmptyString) => Identifier fallback
  | Some (Inherited name) => Builtin name
  | None => Identifier fallback
  end.

(** [const nimModel = MODEL_MAPPING[model] || FALLBACK_MODEL;] *)
Definition nimModel (model : string) : model_ref :=
  resolve MODEL_MAPPING FALLBACK_MODEL model.

(** "registered in the table" *)
Definition registered (model : string) : bool :=
  mem model (map fst MODEL_MAPPING).

(** The earlier listing of the handler, which declares [FALLBACK_MODEL]
    and does not use it: [const nimModel = MODEL_MAPPING[model];], over a
    table that differs in the entry of ["claude-3-sonnet"]. *)
Definition MODEL_MAPPING_earlier : list (string * string) :=
  [ ("gpt-3.5-turbo", "nvidia/llama-3.1-nemotron-ultra-253b-v1");
    ("gpt-4", "deepseek-ai/deepseek-v3.2");
    ("gpt-4-turbo", "moonshotai/kimi-k2-instruct-0905");
    ("gpt-4o", "moonshotai/kimi-k2.5");
    ("claude-3-opus", "z-ai/glm4.7");
    ("claude-3-sonnet", "qwen/qwen3.5-397b-a17b");
    ("gemini-pro", "z-ai/glm5") ].

Definition nimModel_earlier (model : string) : option property :=
  lookup MODEL_MAPPING_earlier model.

End ModelMapper.

(* ------------------------------------------------------------------ *)
(** ** Streaming path *)

Definition nl : string := String JSString.newline EmptyString.

(** The feature toggle as the source sets it. *)
Definition SHOW_REASONING : bool := false.

Module Stream.

Import JSString.

Section WithRuntime.

Context {rt : Runtime}.
(** The toggle is a parameter here, so that both of its states can be
    stated; the source fixes it to [SHOW_REASONING]. *)
Variable show_reasoning : bool.

Local Abbreviation jsvalue := (value number).

(** Lines 212-214: append the chunk, split, keep what follows the last
    newline.  Returns the complete lines and the new accumulator. *)
Definition reassemble (buffer : string) (chunk : Buffer)
  : list string * string :=
  let buffer := buffer ++ Buffer_toString chunk in
  let lines := split buffer in
  let (last, lines) := pop lines in
  (lines, or_empty last).

(** The accumulator threaded through a sequence of chunks, with all the
    lines handed to the loop on the way. *)
Fixpoint feed (buffer : string) (chunks : list Buffer)
  : list string * string :=
  match chunks with
  | [] => ([], buffer)
  | c :: cs =>
      let (lines, buffer') := reassemble buffer c in
      let (more, final) := feed buffer' cs in
      (lines ++ more, final)%list
  end.

(** Line 225: [parsed.choices?.[0]?.delta ?? {}] *)
Definition read_delta (parsed : jsvalue) : result jsvalue :=
  choices <- get (Some parsed) "choices" ;;
  Ok (coalesce (get_opt (first_opt choices) "delta") (VObj [])).

(** The text [<think>r</think>\n\nc] *)
Definition think (r c : string) : string :=
  "<think>" ++ r ++ "</think>" ++ nl ++ nl ++ c.

(** Lines 227-232: the content of the rewritten delta. *)
Definition merge (delta : jsvalue) : result jsvalue :=
  let content := coalesce (get_own delta "content") (VStr "") in
  let reasoning := coalesce (get_own delta "reasoning_content") (VStr "") in
  if show_reasoning && ToBoolean reasoning then
    r <- ToString reasoning ;;
    c <- ToString content ;;
    Ok (VStr (think r c))
  else Ok content.

(** Line 234: [parsed.choices[0].delta = d]; the result is [parsed] as
    it is after the assignment. *)
Definition assign_delta (parsed d : jsvalue) : result jsvalue :=
  choices <- get (Some parsed) "choices" ;;
  choice <- first choices ;;
  choice' <- set_own choice "delta" d ;;
  Ok (match choices with
      | Some cs => with_own parsed "choices" (with_first cs choice')
      | None => parsed
      end).

(** Lines 224-235, the body of the [try] block: what is written for the
    line, or the exception. *)
Definition transcode (line : string) : result string :=
  match JSON_parse (slice 5 line) with
  | None => Throw
  | Some parsed =>
      delta <- read_delta parsed ;;
      content <- merge delta ;;
      parsed' <- assign_delta parsed (VObj [("content", content)]) ;;
      Ok ("data: " ++ JSON_stringify parsed' ++ nl ++ nl)
  end.

Definition DONE_event : string := "data: [DONE]" ++ nl ++ nl.

(** Lines 223-238, the [try] statement with its empty [catch]: the texts
    passed to [res.write] after it, given those before it. *)
Definition try_catch (line : string) (written : list string) : list string :=
  match transcode line with
  | Ok out => (written ++ [out])%list
  | Throw => written
  end.

(** Lines 216-239, the loop over the lines of one chunk: [written] is the
    list of the texts passed to [res.write] so far.  The [return] at the
    marker leaves the callback. *)
Fixpoint process (lines : list string) (written : list string)
  : list string :=
  match lines with
  | [] => written
  | line :: rest =>
      if negb (startsWith "data:" line) then process rest written
      else if includes "[DONE]" line then (written ++ [DONE_event])%list
      else process rest (try_catch line written)
  end.

(** The state of one streaming exchange. *)
Record connection : Type := {
  buffer : string;
  written : list string;
  ended : bool
}.

Definition opened : connection :=
  {| buffer := ""; written := []; ended := false |}.

(** Lines 211-240, the ["data"] callback. *)
Definition on_data (st : connection) (chunk : Buffer) : connection :=
  let (lines, buffer') := reassemble (buffer st) chunk in
  {| buffer := buffer';
     written := process lines (written st);
     ended := ended st |}.

(** Lines 242 and 243, the ["end"] and ["error"] callbacks: [res.end()]. *)
Definition on_end (st : connection) : connection :=
  {| buffer := buffer st; written := written st; ended := true |}.

Definition on_error (st : connection) : connection :=
  {| buffer := buffer st; written := written st; ended := true |}.

Inductive event : Type :=
| EvData (chunk : Buffer)
| EvEnd
| EvError.

Definition step (st : connection) (ev : event) : connection :=
  match ev with
  | EvData chunk => on_data st chunk
  | EvEnd => on_end st
  | EvError => on_error st
  end.

Definition run (evs : list event) : connection := fold_left step evs opened.

End WithRuntime.

End Stream.

(* ------------------------------------------------------------------ *)
(** ** Non-streaming path *)

Module NonStream.

Definition Z_to_string (z : Z) : string :=
  NilZero.string_of_int (Z.to_int z).

Section WithRuntime.

Context {rt : Runtime}.
Variable show_reasoning : bool.

Local Abbreviation jsvalue := (value number).

(** A property of the response that may hold [undefined] is an [option]. *)
Record message_out : Type := {
  role : string;
  content : option jsvalue
}.

Record choice_out : Type := {
  index : option jsvalue;
  message : message_out;
  finish_reason : option jsvalue
}.

Record ChatResponse : Type := {
  id : string;
  object : string;
  created : Z;
  model : option jsvalue;
  choices : list choice_out;
  usage : jsvalue
}.

Inductive body : Type :=
| Completion (r : ChatResponse)
| ErrorBody (message type : string).

Record response : Type := {
  status : nat;
  json : body
}.

(** [Boolean(x)] for [x] a value or [undefined]. *)
Definition truthy (x : option jsvalue) : bool :=
  match x with
  | None => false
  | Some v => ToBoolean v
  end.

(** Lines 257-259, the [content] of the outgoing message of choice [c]. *)
Definition message_content (c : jsvalue) : result (option jsvalue) :=
  if show_reasoning
     && truthy (get_opt (get_own c "message") "reasoning_content")
  then
    r <- (x <- get (get_own c "message") "reasoning_content" ;;
          ToString_opt x) ;;
    v <- (x <- get (get_own c "message") "content" ;; ToString_opt x) ;;
    Ok (Some (VStr (Stream.think r v)))
  else get (get_own c "message") "content".

(** Lines 253-262, the callback of [map]. *)
Definition transcode_choice (c : jsvalue) : result choice_out :=
  i <- get (Some c) "index" ;;
  t <- message_content c ;;
  f <- get (Some c) "finish_reason" ;;
  Ok {| index := i;
        message := {| role := "assistant"; content := t |};
        finish_reason := f |}.

(** [x.map(f)]: only an array has a [map] to call. *)
Definition map_call (x : option jsvalue) (f : jsvalue -> result choice_out)
  : result (list choice_out) :=
  match x with
  | Some (VArr es props) =>
      match assoc "map" props with
      | Some _ => Throw
      | None => mapM f es
      end
  | Some (VNull | VBool _ | VNum _ | VStr _ | VObj _) | None => Throw
  end.

(** Lines 248-264: [openaiResponse], for the readings [now] and [later] of
    the two calls of [Date.now()] (in milliseconds), the caller's [model]
    and the upstream body [data]. *)
Definition openaiResponse (now later : Z) (model : option jsvalue)
    (data : jsvalue) : result ChatResponse :=
  cs <- (x <- get (Some data) "choices" ;; map_call x transcode_choice) ;;
  u <- get (Some data) "usage" ;;
  Ok {| id := "chatcmpl-" ++ Z_to_string now;
        object := "chat.completion";
        created := (later / 1000)%Z;
        model := model;
        choices := cs;
        usage := coalesce u (VObj []) |}.

(** What [await axios.post(...)] does: it throws, or yields a response
    whose [data] is the upstream body. *)
Inductive upstream : Type :=
| Rejected
| Resolved (data : jsvalue).

(** Lines 267-275, the [catch] block. *)
Definition proxy_error : response :=
  {| status := 500;
     json := ErrorBody "Upstream NIM error" "proxy_error" |}.

(** The handler for a request whose [stream] flag is falsy: the [try]
    block (the model lookup converts [model] to a property key, the
    upstream call, the response) and the [catch] block. *)
Definition chat_completions (now later : Z) (model : option jsvalue)
    (up : upstream) : response :=
  match
    (key <- ToString_opt model ;;
     let nimModel := ModelMapper.nimModel key in
     match up with
     | Rejected => Throw
     | Resolved data => openaiResponse now later model data
     end)
  with
  | Ok r => {| status := 200; json := Completion r |}
  | Throw => proxy_error
  end.

End WithRuntime.

End NonStream.

(* ------------------------------------------------------------------ *)
(** ** The decoding of a chunk

    A chunk is a [Buffer] of bytes and [chunk.toString()] decodes it as
    UTF-8, each chunk on its own, the way the Encoding Standard's decoder
    does: a byte that cannot start a character, a byte that cannot continue
    the character under way, and a character left unfinished where the
    chunk ends are each answered by U+FFFD.  A text is held here as its
    UTF-8 encoding, so a well-formed character decodes to its own bytes and
    U+FFFD is the three bytes [EF BF BD]. *)

Module Utf8.

Definition replacement : string :=
  String "239"%char (String "191"%char (String "189"%char EmptyString)).

(** Between characters, or inside one: the bytes seen of it, how many are
    still to come, and the range allowed for the next one. *)
Inductive state : Type :=
| Start
| Mid (seen : string) (needed : nat) (lower upper : N).

(** A byte read between characters. *)
Definition lead (c : ascii) : string * state :=
  let b := N_of_ascii c in
  if (b <=? 127)%N then (String c EmptyString, Start)
  else if ((194 <=? b) && (b <=? 223))%N then
    (EmptyString, Mid (String c EmptyString) 1 128 191)
  else if ((224 <=? b) && (b <=? 239))%N then
    (EmptyString,
     Mid (String c EmptyString) 2
         (if (b =? 224)%N then 160%N else 128%N)
         (if (b =? 237)%N then 159%N else 191%N))
  else if ((240 <=? b) && (b <=? 244))%N then
    (EmptyString,
     Mid (String c EmptyString) 3
         (if (b =? 240)%N then 144%N else 128%N)
         (if (b =? 244)%N then 143%N else 191%N))
  else (replacement, Start).

(** One byte: what is put out and the state after it.  A byte that cannot
    continue the character under way ends it with U+FFFD and is read again
    as a first byte. *)
Definition step (st : state) (c : ascii) : string * state :=
  match st with
  | Start => lead c
  | Mid seen needed lower upper =>
      let b := N_of_ascii c in
      if ((lower <=? b) && (b <=? upper))%N then
        match needed with
        | S (S n) => (EmptyString, Mid (seen ++ String c EmptyString) (S n) 128 191)
        | _ => (seen ++ String c EmptyString, Start)
        end
      else let (out, st') := lead c in (replacement ++ out, st')
  end.

Fixpoint decode (st : state) (bytes : string) : string :=
  match bytes with
  | EmptyString =>
      match st with
      | Start => EmptyString
      | Mid _ _ _ _ => replacement
      end
  | String c rest => let (out, st') := step st c in out ++ decode st' rest
  end.

(** [chunk.toString()] *)
Definition toString (chunk : string) : string := decode Start chunk.

(** "every byte is below 128" *)
Fixpoint ascii_only (s : string) : bool :=
  match s with
  | EmptyString => true
  | String c s' => (N_of_ascii c <=? 127)%N && ascii_only s'
  end.

End Utf8.

(* ------------------------------------------------------------------ *)
(** ** A runtime to evaluate on

    Chunks are byte sequences decoded as UTF-8, numbers are integers,
    [JSON.parse] is given by its value on the payloads used below
    (anything else is rejected) and [JSON.stringify] prints without
    spaces. *)

Module Fixture.

Definition quote_char : ascii := "034"%char.
Definition backslash : ascii := "092"%char.

Definition quoted (s : string) : string :=
  String quote_char (s ++ String quote_char EmptyString).

Fixpoint escape (s : string) : string :=
  match s with
  | EmptyString => EmptyString
  | String c s' =>
      (if Ascii.eqb c quote_char then String backslash (String quote_char "")
       else if Ascii.eqb c backslash then String backslash (String backslash "")
       else if Ascii.eqb c JSString.newline then String backslash "n"
       else String c "") ++ escape s'
  end.

Fixpoint stringify (v : value Z) : string :=
  match v with
  | VNull => "null"
  | VBool true => "true"
  | VBool false => "false"
  | VNum n => NonStream.Z_to_string n
  | VStr s => quoted (escape s)
  | VArr es _ =>
      "[" ++
      (fix elems (l : list (value Z)) : string :=
         match l with
         | [] => ""
         | e :: l' =>
             stringify e ++
             match l' with [] => "" | _ :: _ => "," ++ elems l' end
         end) es ++ "]"
  | VObj fs =>
      "{" ++
      (fix members (l : list (string * value Z)) : string :=
         match l with
         | [] => ""
         | (k, e) :: l' =>
             quoted (escape k) ++ ":" ++ stringify e ++
             match l' with [] => "" | _ :: _ => "," ++ members l' end
         end) fs ++ "}"
  end.

(** [{"choices":[{"index":0,"delta":{"role":"assistant","content":"late"}}]}] *)
Definition late_event : value Z :=
  VObj [("choices",
         VArr [VObj [("index", VNum 0%Z);
                     ("delta", VObj [("role", VStr "assistant");
                                     ("content", VStr "late")])]] [])].

(** [{"id":"e1","choices":[]}] *)
Definition no_choice_event : value Z :=
  VObj [("id", VStr "e1"); ("choices", VArr [] [])].

(** [{"id":"e2"}] *)
Definition keepalive_event : value Z :=
  VObj [("id", VStr "e2")].

(** [{"choices":[{"index":0}]}] *)
Definition no_delta_event : value Z :=
  VObj [("choices", VArr [VObj [("index", VNum 0%Z)]] [])].

(** [{"choices":[{"index":0,"delta":{"content":"World",
    "reasoning_content":"thinking..."}}]}] *)
Definition world_event : value Z :=
  VObj [("choices",
         VArr [VObj [("index", VNum 0%Z);
                     ("delta", VObj [("content", VStr "World");
                                     ("reasoning_content",
                                      VStr "thinking...")])]] [])].

(** [{"id":"e4","choices":[{"delta":{"role":"assistant","content":"Hello",
    "reasoning_content":"ignored"},"finish_reason":null}]}] *)
Definition hello_event : value Z :=
  VObj [("id", VStr "e4");
        ("choices",
         VArr [VObj [("delta", VObj [("role", VStr "assistant");
                                     ("content", VStr "Hello");
                                     ("reasoning_content", VStr "ignored")]);
                     ("finish_reason", VNull)]] [])].

(** [{"id":"[DONE]"}] *)
Definition marker_id_event : value Z :=
  VObj [("id", VStr "[DONE]")].

(** The payload of a ["data: <json>"] line as the upstream writes it. *)
Definition payload (v : value Z) : string := " " ++ stringify v.

Definition parse (text : string) : option (value Z) :=
  if String.eqb text (payload late_event) then Some late_event
  else if String.eqb text (payload no_choice_event) then Some no_choice_event
  else if String.eqb text (payload keepalive_event) then Some keepalive_event
  else if String.eqb text (payload no_delta_event) then Some no_delta_event
  else if String.eqb text (payload world_event) then Some world_event
  else if String.eqb text (payload hello_event) then Some hello_event
  else if String.eqb text (payload marker_id_event) then Some marker_id_event
  else None.

#[export] Instance runtime : Runtime := {|
  number := Z;
  Buffer := string;
  Buffer_toString := Utf8.toString;
  number_truthy := fun n => negb (Z.eqb n 0);
  Number_toString := NonStream.Z_to_string;
  JSON_parse := parse;
  JSON_stringify := stringify
|}.

(** The line ["data: <json>"] of an event. *)
Definition data_line (v : value Z) : string := "data:" ++ payload v.

(** [{"content":"World","reasoning_content":"thinking..."}] *)
Definition world_delta : value Z :=
  VObj [("content", VStr "World"); ("reasoning_content", VStr "thinking...")].

(** [{"content":"Hello","reasoning_content":"ignored"}] *)
Definition hello_delta : value Z :=
  VObj [("content", VStr "Hello"); ("reasoning_content", VStr "ignored")].

(** A chunk with the given bytes. *)
Definition chunk (bytes : string) : @Buffer runtime := bytes.

Definition data (bytes : string) : @Stream.event runtime :=
  Stream.EvData (chunk bytes).

(** The euro sign, [E2 82 AC], and the two pieces into which a chunk
    boundary after its second byte cuts the line that holds it. *)
Definition euro : string :=
  String "226"%char (String "130"%char (String "172"%char EmptyString)).

Definition euro_head : string :=
  String "226"%char (String "130"%char EmptyString).

Definition euro_tail : string :=
  String "172"%char (String JSString.newline EmptyString).

(** An upstream body with one choice and no [usage]. *)
Definition one_choice_body : value Z :=
  VObj [("id", VStr "cmpl-1");
        ("choices",
         VArr [VObj [("index", VNum 0%Z);
                     ("message", VObj [("role", VStr "assistant");
                                       ("content", VStr "Hi")]);
                     ("finish_reason", VStr "stop")]] [])].

(** The upstream call answered with the body [data]. *)
Definition resolved (data : value Z) : @NonStream.upstream runtime :=
  NonStream.Resolved data.

(** What the handler answers to [one_choice_body] at the clock readings
    [1700000000123] and [1700000000124] for a caller that asked for
    ["gpt-4"]. *)
Definition one_choice_response : @NonStream.ChatResponse runtime :=
  {| NonStream.id := "chatcmpl-1700000000123";
     NonStream.object := "chat.completion";
     NonStream.created := 1700000000%Z;
     NonStream.model := Some (VStr "gpt-4");
     NonStream.choices :=
       [ {| NonStream.index := Some (VNum 0%Z);
            NonStream.message :=
              {| NonStream.role := "assistant";
                 NonStream.content := Some (VStr "Hi") |};
            NonStream.finish_reason := Some (VStr "stop") |} ];
     NonStream.usage := VObj [] |}.

(** An upstream body without [choices], and one whose second choice has
    no [message]. *)
Definition error_body : value Z :=
  VObj [("detail", VStr "model not found")].

Definition headless_body : value Z :=
  VObj [("choices",
         VArr [VObj [("index", VNum 0%Z);
                     ("message", VObj [("content", VStr "Hi")])];
               VObj [("index", VNum 1%Z)]] [])].

End Fixture.

(* ------------------------------------------------------------------ *)
(** ** Vocabulary of the statements *)

Module Shape.

Section WithRuntime.

Context {rt : Runtime}.

(** The event's [choices] is absent or an empty list. *)
Definition no_choices (parsed : value number) : bool :=
  match get_own parsed "choices" with
  | None => true
  | Some (VArr [] _) => true
  | Some _ => false
  end.

(** [parsed.choices[0].delta], read back from an event. *)
Definition first_delta (parsed : value number) : result (option (value number)) :=
  choices <- get (Some parsed) "choices" ;;
  choice <- first choices ;;
  get choice "delta".

(** The sentinel in the words of the specification: the payload after the
    prefix is exactly ["[DONE]"], the one space that the event-stream
    format allows after the colon not counted. *)
Definition sentinel_payload (payload : string) : bool :=
  String.eqb payload "[DONE]" || String.eqb payload " [DONE]".

End WithRuntime.

End Shape.

(* ------------------------------------------------------------------ *)
(** ** The model listing *)

Module Listing.

Record entry : Type := {
  id : string;
  object : string;
  owned_by : string
}.

(** [Object.keys(table)]: the own keys in the order they were written
    (none of the table's keys reads as an array index). *)
Definition keys (table : list (string * string)) : list string :=
  map fst table.

(** Lines 160-169, the [data] of the answer to [GET /v1/models]. *)
Definition data : list entry :=
  map (fun key => {| id := key; object := "model";
                     owned_by := "nvidia-nim-proxy" |})
      (keys ModelMapper.MODEL_MAPPING).

End Listing.

(* ------------------------------------------------------------------ *)
(** ** The handler as a whole *)

(** The second feature toggle as the source sets it. *)
Definition ENABLE_THINKING_MODE : bool := false.

Module Handler.

Section WithRuntime.

Context {rt : Runtime}.
Variable show_reasoning : bool.
Variable thinking_mode : bool.
(** The literals [0.6] and [4096] of lines 181 and 182, numbers being
    opaque. *)
Variable temperature_default : number.
Variable max_tokens_default : number.

Local Abbreviation jsvalue := (value number).

(** Line 174, the destructuring of [req.body]: a [TypeError] when the body
    is [undefined] or [null], [undefined] for a property that is not there
    (none of the five names is on a prototype). *)
Record fields : Type := {
  model : option jsvalue;
  messages : option jsvalue;
  temperature : option jsvalue;
  max_tokens : option jsvalue;
  stream : option jsvalue
}.

Definition destructure (body : option jsvalue) : result fields :=
  m <- get body "model" ;;
  ms <- get body "messages" ;;
  t <- get body "temperature" ;;
  mt <- get body "max_tokens" ;;
  s <- get body "stream" ;;
  Ok {| model := m; messages := ms; temperature := t;
        max_tokens := mt; stream := s |}.

(** Lines 178-187, the body sent upstream.  A property that holds
    [undefined] is [None]; [extra_body] is there only under the thinking
    toggle. *)
Record nimRequest : Type := {
  nim_model : ModelMapper.model_ref;
  nim_messages : option jsvalue;
  nim_temperature : jsvalue;
  nim_max_tokens : jsvalue;
  nim_stream : bool;
  extra_body : option jsvalue
}.

Definition thinking_directive : jsvalue :=
  VObj [("chat_template_kwargs", VObj [("thinking", VBool true)])].

(** Lines 176-187: the model lookup, which turns [model] into a property
    key, and the request. *)
Definition build (f : fields) : result nimRequest :=
  key <- ToString_opt (model f) ;;
  Ok {| nim_model := ModelMapper.nimModel key;
        nim_messages := messages f;
        nim_temperature := coalesce (temperature f) (VNum temperature_default);
        nim_max_tokens := coalesce (max_tokens f) (VNum max_tokens_default);
        nim_stream := NonStream.truthy (stream f);
        extra_body := if thinking_mode then Some thinking_directive else None |}.

(** Line 197: [responseType: stream ? "stream" : "json"] *)
Definition responseType (f : fields) : string :=
  if NonStream.truthy (stream f) then "stream" else "json".

(** What [await axios.post(...)] does with the request: it throws, or
    yields a response whose [data] is the parsed body (asked for as
    ["json"]) or the stream with the events it will emit (asked for as
    ["stream"]). *)
Inductive reply : Type :=
| Rejected
| Resolved (data : jsvalue) (events : list Stream.event).

Definition as_upstream (r : reply) : NonStream.upstream :=
  match r with
  | Rejected => NonStream.Rejected
  | Resolved data _ => NonStream.Resolved data
  end.

(** Lines 204-206 *)
Definition stream_headers : list (string * string) :=
  [ ("Content-Type", "text/event-stream");
    ("Cache-Control", "no-cache");
    ("Connection", "keep-alive") ].

(** What the caller gets: one JSON answer, or the flushed headers of an
    event stream and the connection as the upstream's events leave it. *)
Inductive outcome : Type :=
| Answered (r : NonStream.response)
| Streamed (headers : list (string * string)) (st : Stream.connection).

(** Lines 172-276, for the clock readings [now] and [later] and the
    upstream reached through [post]. *)
Definition chat_completions (post : nimRequest -> string -> reply)
    (now later : Z) (body : option jsvalue) : outcome :=
  match (f <- destructure body ;; req <- build f ;; Ok (f, req)) with
  | Throw => Answered NonStream.proxy_error
  | Ok (f, req) =>
      if NonStream.truthy (stream f) then
        match post req (responseType f) with
        | Rejected => Answered NonStream.proxy_error
        | Resolved _ events =>
            Streamed stream_headers (Stream.run show_reasoning events)
        end
      else
        Answered (NonStream.chat_completions show_reasoning now later
                    (model f) (as_upstream (post req (responseType f))))
  end.

End WithRuntime.

End Handler.

(* ------------------------------------------------------------------ *)
(** ** More vocabulary *)

Module Lines.

Import JSString.

(** A line the loop answers with the marker event. *)
Definition marker (line : string) : bool :=
  startsWith "data:" line && includes "[DONE]" line.

Section WithRuntime.

Context {rt : Runtime}.

(** Lines 225-234 on the parsed event: read the delta, merge, assign. *)
Definition rewrite (show : bool) (parsed : value number)
  : result (value number) :=
  delta <- Stream.read_delta parsed ;;
  content <- Stream.merge show delta ;;
  Stream.assign_delta parsed (VObj [("content", content)]).

(** The text of line 235 for the event [v]: ["data: "], its serialization
    and an empty line. *)
Definition event_text (v : value number) : string :=
  "data: " ++ JSON_stringify v ++ nl ++ nl.

(** The event [parsed], whose [choices] is [cs], with [choice] in the
    place of the first choice: every other member of the event and every
    other choice as they were. *)
Definition with_first_choice (parsed cs choice : value number)
  : value number :=
  with_own parsed "choices" (with_first cs choice).

(** The choice with the fields [fs] after [delta] has been assigned
    [{ content }]: the other fields as they were. *)
Definition with_content (fs : list (string * value number))
    (content : value number) : value number :=
  VObj (assoc_set "delta" (VObj [("content", content)]) fs).

(** A choice the callback of [map] gets through when the toggle is off:
    not [null], with a [message] that is neither absent nor [null]. *)
Definition usable_choice (c : value number) : bool :=
  negb (nullish (Some c)) && negb (nullish (get_own c "message")).

End WithRuntime.

End Lines.

(** More of the runtime to evaluate on. *)
Module Samples.

(** The numbers of this runtime are integers: [4096] is one of them,
    [0.6] is not, and [unused_temperature] takes its place in evaluations
    whose result does not depend on it. *)
Definition max_tokens_default : Z := 4096.
Definition unused_temperature : Z := 1.

(** [{"model":"gpt-4","messages":[],"temperature":0,"stream":0}] *)
Definition cold_body : value Z :=
  VObj [("model", VStr "gpt-4"); ("messages", VArr [] []);
        ("temperature", VNum 0%Z); ("stream", VNum 0%Z)].

(** What the destructuring takes from [cold_body]. *)
Definition cold_fields : @Handler.fields Fixture.runtime :=
  @Handler.Build_fields Fixture.runtime
    (Some (VStr "gpt-4")) (Some (VArr [] []))
    (Some (VNum 0%Z)) None (Some (VNum 0%Z)).

(** [{"model":"gpt-4","messages":[],"max_tokens":null,"stream":true}] *)
Definition streaming_body : value Z :=
  VObj [("model", VStr "gpt-4"); ("messages", VArr [] []);
        ("max_tokens", VNull); ("stream", VBool true)].

(** An upstream that answers every request with [one_choice_body], or as
    a stream with one event and the end. *)
Definition post (_ : @Handler.nimRequest Fixture.runtime) (_ : string)
  : @Handler.reply Fixture.runtime :=
  Handler.Resolved (rt := Fixture.runtime) Fixture.one_choice_body
    [Fixture.data (Fixture.data_line Fixture.late_event ++ nl); Stream.EvEnd].

(** [{"id":"e3","choices":[{"index":0,"delta":{"content":"hi"},
    "finish_reason":null},{"index":1,"delta":{"reasoning_content":"r"}}]}] *)
Definition two_choice_event : value Z :=
  VObj [("id", VStr "e3");
        ("choices",
         VArr [VObj [("index", VNum 0%Z);
                     ("delta", VObj [("content", VStr "hi")]);
                     ("finish_reason", VNull)];
               VObj [("index", VNum 1%Z);
                     ("delta", VObj [("reasoning_content", VStr "r")])]] [])].

(** [{"choices":[{"index":0,"delta":{"content":"send [DONE] last"}}]}] *)
Definition marker_talk_event : value Z :=
  VObj [("choices",
         VArr [VObj [("index", VNum 0%Z);
                     ("delta", VObj [("content", VStr "send [DONE] last")])]]
              [])].

(** A choice whose message has reasoning and no content. *)
Definition silent_choice : value Z :=
  VObj [("index", VNum 0%Z);
        ("message", VObj [("reasoning_content", VStr "why")])].

End Samples.

(* ------------------------------------------------------------------ *)
(** * Properties *)

Unset Implicit Arguments.

(** ** Splitting at newlines *)

Section SplitFacts.

Import JSString.

Lemma append_assoc_s (a b c : string) : (a ++ b) ++ c = a ++ b ++ c.
Proof. induction a; simpl; congruence. Qed.

Lemma split_nonempty (s : string) : split s <> [].
Proof.
  destruct s as [|c s]; simpl; [discriminate|].
  destruct (Ascii.eqb c newline); [discriminate|].
  destruct (split s); discriminate.
Qed.

Lemma split_last (s : string) : exists l f, split s = (l ++ [f])%list.
Proof.
  destruct (exists_last (split_nonempty s)) as [l [f E]].
  now exists l, f.
Qed.

Lemma split_cons_other (c : ascii) (s : string) :
  Ascii.eqb c newline = false ->
  split (String c s) =
  match split s with
  | h :: t => String c h :: t
  | [] => [String c EmptyString]
  end.
Proof. intros E; simpl; now rewrite E. Qed.

(** Text appended after [x] only extends what follows the last newline
    of [x]. *)
Lemma split_app (x y : string) :
  forall l f, split x = (l ++ [f])%list ->
              split (x ++ y) = (l ++ split (f ++ y))%list.
Proof.
  induction x as [|c x IH]; intros l f E.
  - simpl in E. destruct l as [|a l].
    + injection E as <-. reflexivity.
    + destruct l; discriminate.
  - simpl in E |- *. destruct (Ascii.eqb c newline) eqn:Ec.
    + destruct l as [|a l].
      * injection E as _ E. now destruct (split_nonempty x).
      * injection E as <- E. simpl. f_equal. now apply IH.
    + destruct (split x) as [|h t] eqn:Ex; [now destruct (split_nonempty x)|].
      destruct l as [|a l].
      * simpl in E. injection E as <- ->.
        rewrite (IH [] h eq_refl). simpl. now rewrite Ec.
      * simpl in E. injection E as <- ->.
        rewrite (IH (h :: l) f eq_refl). reflexivity.
Qed.

Lemma split_no_newline (s : string) :
  no_newline s = true -> split s = [s].
Proof.
  induction s as [|c s IH]; simpl; [reflexivity|].
  intros H. apply andb_true_iff in H as [Hc Hs].
  apply negb_true_iff in Hc. rewrite Hc, (IH Hs). reflexivity.
Qed.

Lemma split_line (l rest : string) :
  no_newline l = true ->
  split (l ++ String newline rest) = l :: split rest.
Proof.
  induction l as [|c l IH]; intros H.
  - reflexivity.
  - simpl in H. apply andb_true_iff in H as [Hc Hl].
    apply negb_true_iff in Hc.
    change (String c l ++ String newline rest)
      with (String c (l ++ String newline rest)).
    rewrite (split_cons_other _ _ Hc), (IH Hl). reflexivity.
Qed.

(** The text of [N] terminated lines and a fragment splits into exactly
    those lines and the fragment. *)
Lemma split_terminated (ls : list string) (frag : string) :
  Forall (fun l => no_newline l = true) ls ->
  no_newline frag = true ->
  split (terminated ls ++ frag) = (ls ++ [frag])%list.
Proof.
  intros Hls Hf. induction Hls as [|l ls Hl _ IH]; simpl.
  - now apply split_no_newline.
  - rewrite append_assoc_s. simpl.
    rewrite split_line by assumption. now rewrite IH.
Qed.

Lemma pop_snoc (l : list string) (f : string) :
  pop (l ++ [f]) = (Some f, l).
Proof. unfold pop. rewrite rev_app_distr. simpl. now rewrite rev_involutive. Qed.

Lemma or_empty_some (f : string) : or_empty (Some f) = f.
Proof. now destruct f. Qed.

Lemma append_empty_r (s : string) : s ++ "" = s.
Proof. induction s; simpl; congruence. Qed.

End SplitFacts.

(** ** The reassembler *)

Section ReassemblerFacts.

Import JSString Stream.
Context {rt : Runtime}.

(** One chunk: the lines handed on and the fragment kept are the split of
    the accumulator followed by the chunk's text. *)
Lemma reassemble_split (b : string) (c : Buffer) (l : list string) (f : string) :
  split (b ++ Buffer_toString c) = (l ++ [f])%list ->
  reassemble b c = (l, f).
Proof.
  intros E. unfold reassemble. rewrite E, pop_snoc, or_empty_some.
  reflexivity.
Qed.

Lemma feed_split (chunks : list Buffer) :
  forall b ls b', feed b chunks = (ls, b') ->
  forall x pre, split x = (pre ++ [b])%list ->
    split (x ++ concat (map Buffer_toString chunks))
    = (pre ++ ls ++ [b'])%list.
Proof.
  induction chunks as [|c cs IH]; intros b ls b' E x pre Hx.
  - injection E as <- <-. simpl. now rewrite append_empty_r.
  - simpl in E.
    destruct (split_last (b ++ Buffer_toString c)) as [l [f Es]].
    rewrite (reassemble_split _ _ _ _ Es) in E.
    destruct (feed f cs) as [more final] eqn:Ef.
    injection E as <- <-.
    simpl. rewrite <- append_assoc_s.
    assert (Hx' : split (x ++ Buffer_toString c) = ((pre ++ l) ++ [f])%list).
    { rewrite (split_app _ _ _ _ Hx), Es. now rewrite app_assoc. }
    rewrite (IH _ _ _ Ef _ _ Hx').
    now rewrite <- !app_assoc.
Qed.

Lemma feed_app (cs1 cs2 : list Buffer) (b : string) :
  feed b (cs1 ++ cs2) =
  (let (l1, b1) := feed b cs1 in
   let (l2, b2) := feed b1 cs2 in
   (l1 ++ l2, b2))%list.
Proof.
  revert b. induction cs1 as [|c cs1 IH]; intros b; simpl.
  - now destruct (feed b cs2).
  - destruct (reassemble b c) as [l b0]. rewrite IH.
    destruct (feed b0 cs1) as [l1 b1]. destruct (feed b1 cs2) as [l2 b2].
    now rewrite app_assoc.
Qed.

(** The accumulator of the connection is the one [feed] computes. *)
Lemma run_buffer (show : bool) (chunks : list Buffer) (st : connection) :
  buffer (fold_left (step show) (map EvData chunks) st)
  = snd (feed (buffer st) chunks).
Proof.
  revert st. induction chunks as [|c cs IH]; intros st; simpl; [reflexivity|].
  rewrite IH. unfold on_data.
  destruct (reassemble (buffer st) c) as [l b]. simpl.
  now destruct (feed b cs).
Qed.

End ReassemblerFacts.

(** The framing is right on the decoded texts.  Whenever the texts that
    [toString] gives for the chunks, put end to end, are [N] lines each
    closed by a newline and then a fragment without newline, the
    reassembler hands on exactly those [N] lines in order and keeps the
    fragment as its accumulator (which is then the accumulator of the
    connection); a further chunk whose text completes the fragment makes
    the completed line the next one handed on. *)
Lemma reassembler_complete_lines `{rt : Runtime}
    (chunks : list Buffer) (ls : list string) (frag : string) :
  Forall (fun l => JSString.no_newline l = true) ls ->
  JSString.no_newline frag = true ->
  JSString.concat (map Buffer_toString chunks)
  = JSString.terminated ls ++ frag ->
  Stream.feed "" chunks = (ls, frag)
  /\ (forall show,
        Stream.buffer (Stream.run show (map Stream.EvData chunks)) = frag)
  /\ (forall (c : Buffer) (rest more : string),
        JSString.no_newline rest = true ->
        Buffer_toString c = rest ++ nl ++ more ->
        exists tl b,
          Stream.feed "" (chunks ++ [c])
          = ((ls ++ (frag ++ rest)%string :: tl)%list, b)
          /\ (tl ++ [b])%list = JSString.split more).
Proof.
  intros Hls Hf Hcat.
  assert (Hfeed : Stream.feed "" chunks = (ls, frag)).
  { destruct (Stream.feed "" chunks) as [ls0 b0] eqn:E.
    pose proof (feed_split _ _ _ _ E "" [] eq_refl) as H.
    simpl in H. rewrite Hcat, split_terminated in H by assumption.
    apply app_inj_tail in H as [-> ->]. reflexivity. }
  split; [exact Hfeed|]. split.
  - intros show. unfold Stream.run. rewrite run_buffer. simpl.
    now rewrite Hfeed.
  - intros c rest more Hrest Hc.
    rewrite feed_app, Hfeed. simpl.
    destruct (split_last more) as [tl [b Em]].
    exists tl, b. split; [|now rewrite Em].
    rewrite (reassemble_split frag c ((frag ++ rest) :: tl) b).
    + now rewrite app_nil_r.
    + rewrite Hc. unfold nl. rewrite <- append_assoc_s. simpl.
      rewrite split_line, Em.
      * reflexivity.
      * clear -Hf Hrest. induction frag as [|a s IH]; simpl in *; [assumption|].
        apply andb_true_iff in Hf as [Ha Hs]. now rewrite Ha, IH.
Qed.

(** ** The end of the upstream stream *)

Section EndFacts.

Import JSString Stream.
Context {rt : Runtime}.

Lemma no_newline_app (a b : string) :
  no_newline (a ++ b) = no_newline a && no_newline b.
Proof.
  induction a as [|c a IH]; simpl; [reflexivity|].
  now rewrite IH, andb_assoc.
Qed.

Lemma split_parts_no_newline (s : string) :
  Forall (fun l => no_newline l = true) (split s).
Proof.
  induction s as [|c s IH]; simpl.
  - now constructor.
  - destruct (Ascii.eqb c newline) eqn:Ec.
    + now constructor.
    + destruct (split s) as [|h t]; constructor.
      * simpl. now rewrite Ec.
      * constructor.
      * simpl. rewrite Ec. simpl. now inversion IH.
      * now inversion IH.
Qed.

(** The accumulator never holds a newline. *)
Lemma reassemble_buffer_no_newline (b : string) (c : Buffer) :
  no_newline (snd (reassemble b c)) = true.
Proof.
  destruct (split_last (b ++ Buffer_toString c)) as [l [f E]].
  rewrite (reassemble_split _ _ _ _ E). simpl.
  pose proof (split_parts_no_newline (b ++ Buffer_toString c)) as H.
  rewrite E in H. apply Forall_app in H as [_ H]. now inversion H.
Qed.

Lemma run_snoc (show : bool) (evs : list event) (ev : event) :
  run show (evs ++ [ev]) = step show (run show evs) ev.
Proof. unfold run. now rewrite fold_left_app. Qed.

Lemma run_buffer_no_newline (show : bool) (chunks : list Buffer) :
  no_newline (buffer (run show (map EvData chunks))) = true.
Proof.
  induction chunks as [|c cs _] using rev_ind; [reflexivity|].
  rewrite map_app. simpl. rewrite run_snoc. simpl. unfold on_data.
  pose proof (reassemble_buffer_no_newline
                (buffer (run show (map EvData cs))) c) as H.
  now destruct (reassemble _ c).
Qed.

(** A chunk without newline writes nothing and joins the accumulator. *)
Lemma on_data_fragment (show : bool) (st : connection) (c : Buffer) :
  no_newline (buffer st) = true ->
  no_newline (Buffer_toString c) = true ->
  on_data show st c
  = {| buffer := buffer st ++ Buffer_toString c;
       written := written st;
       ended := ended st |}.
Proof.
  intros Hb Hc. unfold on_data.
  rewrite (reassemble_split (buffer st) c [] (buffer st ++ Buffer_toString c)).
  - reflexivity.
  - apply split_no_newline. now rewrite no_newline_app, Hb, Hc.
Qed.

(** What follows the last newline of a chunk plays no part in what the
    chunk makes the loop write. *)
Lemma on_data_trailing_fragment (show : bool) (st : connection)
    (cfull cbody : Buffer) (p frag : string) :
  Buffer_toString cbody = p ++ nl ->
  Buffer_toString cfull = p ++ nl ++ frag ->
  no_newline frag = true ->
  written (on_data show st cfull) = written (on_data show st cbody)
  /\ buffer (on_data show st cfull) = frag.
Proof.
  intros Hb Hfull Hf. unfold on_data.
  destruct (split_last (buffer st ++ p)) as [l [f E]].
  assert (Hfn : no_newline f = true).
  { pose proof (split_parts_no_newline (buffer st ++ p)) as H.
    rewrite E in H. apply Forall_app in H as [_ H]. now inversion H. }
  rewrite (reassemble_split (buffer st) cfull (l ++ [f]) frag).
  - rewrite (reassemble_split (buffer st) cbody (l ++ [f]) "").
    + split; reflexivity.
    + rewrite Hb, <- append_assoc_s, (split_app _ _ _ _ E).
      unfold nl. rewrite split_line by assumption.
      now rewrite <- app_assoc.
  - rewrite Hfull, <- append_assoc_s, (split_app _ _ _ _ E).
    unfold nl. simpl append. rewrite split_line by assumption.
    rewrite split_no_newline by assumption. now rewrite <- app_assoc.
Qed.

End EndFacts.

(** C8. The ["end"] callback writes nothing, whatever the accumulator
    holds.  So a text without closing newline that arrives last is never
    written, be it a chunk of its own or the tail of a chunk: the texts
    written up to the end of the stream are those written without it. *)
Theorem residual_fragment_discarded `{rt : Runtime}
    (show : bool) (chunks : list Buffer) :
  (forall st, Stream.written (Stream.on_end st) = Stream.written st)
  /\ (forall c : Buffer,
         JSString.no_newline (Buffer_toString c) = true ->
         Stream.written
           (Stream.run show
              (map Stream.EvData (chunks ++ [c]) ++ [Stream.EvEnd]))
         = Stream.written (Stream.run show (map Stream.EvData chunks))
         /\ Stream.ended
              (Stream.run show
                 (map Stream.EvData (chunks ++ [c]) ++ [Stream.EvEnd]))
            = true
         /\ Stream.buffer
              (Stream.run show
                 (map Stream.EvData (chunks ++ [c]) ++ [Stream.EvEnd]))
            = Stream.buffer (Stream.run show (map Stream.EvData chunks))
              ++ Buffer_toString c)
  /\ (forall (cfull cbody : Buffer) (p frag : string),
         Buffer_toString cbody = p ++ nl ->
         Buffer_toString cfull = p ++ nl ++ frag ->
         JSString.no_newline frag = true ->
         Stream.written
           (Stream.run show
              (map Stream.EvData (chunks ++ [cfull]) ++ [Stream.EvEnd]))
         = Stream.written
             (Stream.run show (map Stream.EvData (chunks ++ [cbody])))
         /\ Stream.buffer
              (Stream.run show
                 (map Stream.EvData (chunks ++ [cfull]) ++ [Stream.EvEnd]))
            = frag).
Proof.
  split; [reflexivity|]. split.
  - intros c Hc.
    rewrite run_snoc, map_app. simpl map. rewrite run_snoc. simpl.
    rewrite on_data_fragment by (try apply run_buffer_no_newline; assumption).
    simpl. repeat split; reflexivity.
  - intros cfull cbody p frag Hb Hfull Hf.
    rewrite run_snoc, !map_app. simpl map. rewrite !run_snoc. simpl.
    exact (on_data_trailing_fragment show _ cfull cbody p frag Hb Hfull Hf).
Qed.

(** ** Property lists *)

Section AssocFacts.

Variable A : Type.

Lemma assoc_set_same (k : string) (v : A) (fs : list (string * A)) :
  assoc k (assoc_set k v fs) = Some v.
Proof.
  induction fs as [|[k' v'] fs IH]; simpl.
  - now rewrite String.eqb_refl.
  - destruct (String.eqb k k') eqn:E; simpl.
    + now rewrite String.eqb_refl.
    + now rewrite E.
Qed.

Lemma assoc_set_absent (k : string) (v : A) (fs : list (string * A)) :
  assoc k fs = None -> assoc_set k v fs = (fs ++ [(k, v)])%list.
Proof.
  induction fs as [|[k' v'] fs IH]; simpl; [reflexivity|].
  destruct (String.eqb k k'); [discriminate|].
  intros H. now rewrite IH.
Qed.

End AssocFacts.

(** ** The rewriting of one event *)

Section TranscoderFacts.

Import JSString Stream Shape.
Context {rt : Runtime}.
Variable show : bool.

Local Abbreviation jsvalue := (value number).

Lemma transcode_unparsed (line : string) :
  JSON_parse (slice 5 line) = None -> transcode show line = Throw.
Proof. intros E. unfold transcode. now rewrite E. Qed.

(** Without a first choice the assignment of line 234 throws. *)
Lemma assign_delta_no_choices (parsed d : jsvalue) :
  no_choices parsed = true -> assign_delta parsed d = Throw.
Proof.
  unfold no_choices, assign_delta. destruct parsed; simpl; try reflexivity.
  - destruct (assoc "choices" props) as [[| | | |[|e es] ps|]|]; simpl;
      try discriminate; reflexivity.
  - destruct (assoc "choices" fields) as [[| | | |[|e es] ps|]|]; simpl;
      try discriminate; reflexivity.
Qed.

Lemma bind_ok (X Y : Type) (a : X) (k : X -> result Y) :
  bind (Ok a) k = k a.
Proof. reflexivity. Qed.

Lemma bind_throw_r (X Y : Type) (r : result X) :
  (x <- r ;; (Throw : result Y)) = Throw.
Proof. now destruct r. Qed.

Lemma transcode_no_choices (line : string) (parsed : jsvalue) :
  JSON_parse (slice 5 line) = Some parsed ->
  no_choices parsed = true ->
  transcode show line = Throw.
Proof.
  intros E H. unfold transcode. rewrite E.
  destruct (read_delta parsed) as [delta|]; simpl; [|reflexivity].
  destruct (merge show delta) as [content|]; simpl; [|reflexivity].
  now rewrite assign_delta_no_choices.
Qed.

Lemma process_cons (line : string) (rest written : list string) :
  process show (line :: rest) written
  = if negb (startsWith "data:" line) then process show rest written
    else if includes "[DONE]" line then (written ++ [DONE_event])%list
    else process show rest (try_catch show line written).
Proof. reflexivity. Qed.

(** A line that reaches the [try] statement costs one iteration. *)
Lemma process_parsed_line (line : string) (rest written : list string) :
  startsWith "data:" line = true ->
  includes "[DONE]" line = false ->
  process show (line :: rest) written
  = process show rest (try_catch show line written).
Proof. intros Hp Hd. now rewrite process_cons, Hp, Hd. Qed.

(** After the assignment the event's first choice holds the new delta. *)
Lemma assign_delta_first_delta (parsed d parsed' : jsvalue) :
  assign_delta parsed d = Ok parsed' ->
  first_delta parsed' = Ok (Some d).
Proof.
  unfold assign_delta, first_delta.
  destruct parsed as [| | | |es props|fs]; simpl; try discriminate.
  - destruct (assoc "choices" props) as [cs|] eqn:Ec; simpl; [|discriminate].
    destruct cs as [| | |s|[|e l] ps|gs]; simpl; try discriminate.
    + destruct s; discriminate.
    + destruct e as [| | | |es' ps'|hs]; simpl; try discriminate;
        intros H; injection H as <-; simpl; rewrite assoc_set_same; simpl;
        now rewrite assoc_set_same.
    + destruct (assoc "0" gs) as [e|] eqn:E0; simpl; [|discriminate].
      destruct e as [| | | |es' ps'|hs]; simpl; try discriminate;
        intros H; injection H as <-; simpl; rewrite assoc_set_same; simpl;
        rewrite assoc_set_same; simpl; now rewrite assoc_set_same.
  - destruct (assoc "choices" fs) as [cs|] eqn:Ec; simpl; [|discriminate].
    destruct cs as [| | |s|[|e l] ps|gs]; simpl; try discriminate.
    + destruct s; discriminate.
    + destruct e as [| | | |es' ps'|hs]; simpl; try discriminate;
        intros H; injection H as <-; simpl; rewrite assoc_set_same; simpl;
        now rewrite assoc_set_same.
    + destruct (assoc "0" gs) as [e|] eqn:E0; simpl; [|discriminate].
      destruct e as [| | | |es' ps'|hs]; simpl; try discriminate;
        intros H; injection H as <-; simpl; rewrite assoc_set_same; simpl;
        rewrite assoc_set_same; simpl; now rewrite assoc_set_same.
Qed.

(** What a successful run of the [try] block has done. *)
Lemma transcode_ok (line out : string) :
  transcode show line = Ok out ->
  exists parsed delta content parsed',
    JSON_parse (slice 5 line) = Some parsed
    /\ read_delta parsed = Ok delta
    /\ merge show delta = Ok content
    /\ assign_delta parsed (VObj [("content", content)]) = Ok parsed'
    /\ out = "data: " ++ JSON_stringify parsed' ++ nl ++ nl.
Proof.
  unfold transcode.
  destruct (JSON_parse (slice 5 line)) as [parsed|]; [|discriminate].
  destruct (read_delta parsed) as [delta|] eqn:Er; simpl; [|discriminate].
  destruct (merge show delta) as [content|] eqn:Em; simpl; [|discriminate].
  destruct (assign_delta parsed _) as [parsed'|] eqn:Ea; simpl; [|discriminate].
  intros H. injection H as <-.
  exists parsed, delta, content, parsed'. repeat split; assumption.
Qed.

(** Everything the loop writes is the marker event or the output of the
    [try] block for one of the lines. *)
Lemma process_outputs (lines : list string) :
  forall written, exists outs,
    process show lines written = (written ++ outs)%list
    /\ Forall (fun o => o = DONE_event
                        \/ exists line, In line lines
                                        /\ transcode show line = Ok o) outs.
Proof.
  induction lines as [|line rest IH]; intros written.
  - exists []. simpl. now rewrite app_nil_r.
  - rewrite process_cons. destruct (startsWith "data:" line); simpl negb; cbv iota.
    + destruct (includes "[DONE]" line).
      * exists [DONE_event]. split; [reflexivity|]. constructor; [now left|constructor].
      * unfold try_catch. destruct (transcode show line) as [out|] eqn:Et.
        -- destruct (IH (written ++ [out])%list) as [outs [E F]].
           exists (out :: outs). split.
           ++ rewrite E. now rewrite <- app_assoc.
           ++ constructor.
              ** right. exists line. split; [now left|assumption].
              ** eapply Forall_impl; [|exact F]. simpl.
                 intros o [H|[l [Hin Hl]]]; [now left|].
                 right. exists l. split; [now right|assumption].
        -- destruct (IH written) as [outs [E F]].
           exists outs. split; [assumption|].
           eapply Forall_impl; [|exact F]. simpl.
           intros o [H|[l [Hin Hl]]]; [now left|].
           right. exists l. split; [now right|assumption].
    + destruct (IH written) as [outs [E F]].
      exists outs. split; [assumption|].
      eapply Forall_impl; [|exact F]. simpl.
      intros o [H|[l [Hin Hl]]]; [now left|].
      right. exists l. split; [now right|assumption].
Qed.

End TranscoderFacts.

(** The content placed in the rewritten delta ([Stream.merge], lines
    227-232), for any delta.  With the toggle on and a reasoning field that is a non-empty
    text, it is the reasoning wrapped in the think markers, two newlines
    and the visible content; with the toggle off, or with a reasoning field
    that is absent, null or empty, it is the visible content as it is; and
    visible content that is absent counts as the empty text. *)
Lemma reasoning_merge `{rt : Runtime} (delta : value number) :
  (forall r c : string,
      get_own delta "reasoning_content" = Some (VStr r) ->
      r <> "" ->
      coalesce (get_own delta "content") (VStr "") = VStr c ->
      Stream.merge true delta
      = Ok (VStr ("<think>" ++ r ++ "</think>" ++ nl ++ nl ++ c)))
  /\ (forall show : bool,
         show = false
         \/ coalesce (get_own delta "reasoning_content") (VStr "") = VStr "" ->
         Stream.merge show delta
         = Ok (coalesce (get_own delta "content") (VStr "")))
  /\ (get_own delta "content" = None ->
      coalesce (get_own delta "content") (VStr "") = VStr "").
Proof.
  split; [|split].
  - intros r c Hr Hne Hc. unfold Stream.merge. rewrite Hr, Hc. simpl.
    destruct r as [|a r]; [contradiction|reflexivity].
  - intros show [->|He]; unfold Stream.merge.
    + reflexivity.
    + rewrite He. simpl. now rewrite andb_false_r.
  - intros ->. reflexivity.
Qed.

(** The two deltas of the specification's examples. *)
Lemma reasoning_merge_examples :
  Stream.merge (rt := Fixture.runtime) true Fixture.world_delta
  = Ok (VStr ("<think>thinking...</think>" ++ nl ++ nl ++ "World"))
  /\ Stream.merge (rt := Fixture.runtime) SHOW_REASONING Fixture.hello_delta
     = Ok (VStr "Hello").
Proof.
  destruct (reasoning_merge (rt := Fixture.runtime) Fixture.world_delta)
    as [Hon _].
  destruct (reasoning_merge (rt := Fixture.runtime) Fixture.hello_delta)
    as [_ [Hoff _]].
  split.
  - apply (Hon "thinking..." "World"); [reflexivity|discriminate|reflexivity].
  - apply (Hoff SHOW_REASONING). left. reflexivity.
Defined.

(** A ["data:"] line that does not contain the text ["[DONE]"] and whose
    payload [JSON.parse] rejects writes nothing:
    the exception stays inside the [try] statement and the loop goes on
    with the lines that follow. *)
Lemma malformed_payload_dropped `{rt : Runtime}
    (show : bool) (line : string) :
  JSString.startsWith "data:" line = true ->
  JSString.includes "[DONE]" line = false ->
  JSON_parse (JSString.slice 5 line) = None ->
  (forall written, Stream.try_catch show line written = written)
  /\ (forall rest written,
         Stream.process show (line :: rest) written
         = Stream.process show rest written).
Proof.
  intros Hp Hd He.
  assert (Ht : forall written, Stream.try_catch show line written = written).
  { intros written. unfold Stream.try_catch.
    now rewrite (transcode_unparsed show line He). }
  split; [exact Ht|].
  intros rest written. now rewrite process_parsed_line, Ht.
Qed.

Lemma malformed_payload_dropped_witness :
  Stream.process (rt := Fixture.runtime) SHOW_REASONING
    ["data: {oops"; Fixture.data_line Fixture.late_event] []
  = Stream.process (rt := Fixture.runtime) SHOW_REASONING
      [Fixture.data_line Fixture.late_event] [].
Proof.
  apply (malformed_payload_dropped (rt := Fixture.runtime)
           SHOW_REASONING "data: {oops"); reflexivity.
Defined.

(** Not so for every line with a payload that is neither valid JSON nor
    the sentinel: the line ["data: x[DONE]"] is answered with the marker
    event and the lines after it are left unread. *)
Lemma malformed_payload_with_marker :
  ~ (forall (line : string) (rest written : list string),
        JSString.startsWith "data:" line = true ->
        JSON_parse (Runtime := Fixture.runtime) (JSString.slice 5 line) = None ->
        Shape.sentinel_payload (JSString.slice 5 line) = false ->
        Stream.process (rt := Fixture.runtime) SHOW_REASONING
          (line :: rest) written
        = Stream.process (rt := Fixture.runtime) SHOW_REASONING rest written).
Proof.
  intros H.
  specialize (H "data: x[DONE]" [Fixture.data_line Fixture.late_event] []
                eq_refl eq_refl eq_refl).
  vm_compute in H. discriminate H.
Qed.

(** Inside the [try] statement, an event that [JSON.parse] accepts and
    whose [choices] is absent or empty makes the [try] block throw at the assignment of line 234;
    the [catch] swallows it, nothing is written and the loop goes on.  An
    event whose first choice is an object without [delta] (or with a null
    one) is rewritten with the content [""]. *)
Lemma missing_choices_is_noop `{rt : Runtime}
    (show : bool) (line : string) (parsed : value number) :
  JSON_parse (JSString.slice 5 line) = Some parsed ->
  (Shape.no_choices parsed = true ->
   Stream.transcode show line = Throw
   /\ (forall written, Stream.try_catch show line written = written)
   /\ (JSString.startsWith "data:" line = true ->
       JSString.includes "[DONE]" line = false ->
       forall rest written,
         Stream.process show (line :: rest) written
         = Stream.process show rest written))
  /\ (forall (cs : value number) (fs : list (string * value number)),
         get_own parsed "choices" = Some cs ->
         get_first cs = Some (VObj fs) ->
         nullish (assoc "delta" fs) = true ->
         Stream.read_delta parsed = Ok (VObj [])
         /\ Stream.merge show (VObj []) = Ok (VStr "")
         /\ Stream.transcode show line
            = Ok ("data: "
                  ++ JSON_stringify
                       (with_own parsed "choices"
                          (with_first cs
                             (VObj (assoc_set "delta"
                                      (VObj [("content", VStr "")]) fs))))
                  ++ nl ++ nl)).
Proof.
  intros Hp. split.
  - intros Hn.
    pose proof (transcode_no_choices show line parsed Hp Hn) as Ht.
    assert (Hc : forall written, Stream.try_catch show line written = written).
    { intros written. unfold Stream.try_catch. now rewrite Ht. }
    repeat split; [exact Ht|exact Hc|].
    intros Hs Hd rest written. now rewrite process_parsed_line, Hc.
  - intros cs fs Hcs Hfs Hd.
    assert (Hm : Stream.merge show (VObj []) = Ok (VStr "")).
    { unfold Stream.merge. simpl. now rewrite andb_false_r. }
    assert (Hg : get (Some parsed) "choices" = Ok (Some cs)).
    { destruct parsed; simpl in Hcs |- *; try discriminate; now rewrite Hcs. }
    assert (Hf : first_opt (Some cs) = Some (VObj fs)
                 /\ first (Some cs) = Ok (Some (VObj fs))).
    { destruct cs; simpl in Hfs |- *; try discriminate; now rewrite Hfs. }
    destruct Hf as [Hfo Hf].
    assert (Hr : Stream.read_delta parsed = Ok (VObj [])).
    { unfold Stream.read_delta. rewrite Hg, bind_ok, Hfo. simpl.
      destruct (assoc "delta" fs) as [[]|]; simpl in Hd |- *;
        try discriminate; reflexivity. }
    repeat split; [exact Hr|exact Hm|].
    unfold Stream.transcode. rewrite Hp, Hr, bind_ok, Hm, bind_ok.
    unfold Stream.assign_delta. rewrite Hg, bind_ok, Hf. reflexivity.
Qed.

Lemma missing_choices_is_noop_witness :
  Stream.process (rt := Fixture.runtime) SHOW_REASONING
    [Fixture.data_line Fixture.no_choice_event;
     Fixture.data_line Fixture.keepalive_event] ["earlier"]
  = ["earlier"]
  /\ Stream.process (rt := Fixture.runtime) SHOW_REASONING
       [Fixture.data_line Fixture.no_delta_event] []
     = ["data: " ++ Fixture.stringify
                      (VObj [("choices",
                              VArr [VObj [("index", VNum 0%Z);
                                          ("delta",
                                           VObj [("content", VStr "")])]] [])])
                 ++ nl ++ nl].
Proof.
  pose proof (missing_choices_is_noop (rt := Fixture.runtime) SHOW_REASONING
                (Fixture.data_line Fixture.no_choice_event)
                Fixture.no_choice_event eq_refl) as [H1 _].
  pose proof (missing_choices_is_noop (rt := Fixture.runtime) SHOW_REASONING
                (Fixture.data_line Fixture.keepalive_event)
                Fixture.keepalive_event eq_refl) as [H2 _].
  pose proof (missing_choices_is_noop (rt := Fixture.runtime) SHOW_REASONING
                (Fixture.data_line Fixture.no_delta_event)
                Fixture.no_delta_event eq_refl) as [_ H3].
  destruct (H1 eq_refl) as [_ [_ K1]].
  destruct (H2 eq_refl) as [_ [_ K2]].
  destruct (H3 _ _ eq_refl eq_refl eq_refl) as [_ [_ K3]].
  split.
  - rewrite (K1 eq_refl eq_refl), (K2 eq_refl eq_refl). reflexivity.
  - rewrite process_parsed_line by reflexivity.
    unfold Stream.try_catch. rewrite K3. reflexivity.
Defined.

(** ** The marker line *)

Section MarkerFacts.

Import JSString Stream.
Context {rt : Runtime}.

Lemma startsWith_slice (p s : string) :
  startsWith p s = true -> s = p ++ slice (String.length p) s.
Proof.
  revert s. induction p as [|a p IH]; intros s H; [reflexivity|].
  destruct s as [|b s]; [discriminate|]. simpl in H |- *.
  destruct (Ascii.eqb a b) eqn:E; [|discriminate].
  apply Ascii.eqb_eq in E. subst b. f_equal. now apply IH.
Qed.

(** A line whose payload is the sentinel is answered by the marker event
    alone, and the lines after it in the same chunk are left unread. *)
Lemma sentinel_line_in_chunk (show : bool) (line : string)
    (rest written : list string) :
  startsWith "data:" line = true ->
  Shape.sentinel_payload (slice 5 line) = true ->
  process show (line :: rest) written = (written ++ [DONE_event])%list.
Proof.
  intros Hp Hs. rewrite process_cons, Hp. simpl negb. cbv iota.
  rewrite (startsWith_slice _ _ Hp). change (String.length "data:") with 5.
  unfold Shape.sentinel_payload in Hs. apply orb_true_iff in Hs as [Hs|Hs];
    apply String.eqb_eq in Hs; rewrite Hs; reflexivity.
Qed.

End MarkerFacts.

(** C3, at the input where the code departs from it.  The upstream sends
    the sentinel line in one chunk and an event in the next: the marker
    event is written once, and the line of the later chunk is read and
    rewritten all the same, since the [return] of line 220 leaves only the
    callback of the chunk at hand. *)
Theorem lines_after_sentinel_processed :
  Stream.written
    (Stream.run (rt := Fixture.runtime) SHOW_REASONING
       [Fixture.data ("data: [DONE]" ++ nl);
        Fixture.data (Fixture.data_line Fixture.late_event ++ nl);
        Stream.EvEnd])
  = [Stream.DONE_event;
     "data: "
     ++ Fixture.stringify
          (VObj [("choices",
                  VArr [VObj [("index", VNum 0%Z);
                              ("delta", VObj [("content", VStr "late")])]] [])])
     ++ nl ++ nl]
  /\ Stream.written
       (Stream.run (rt := Fixture.runtime) SHOW_REASONING
          [Fixture.data ("data: [DONE]" ++ nl
                         ++ Fixture.data_line Fixture.late_event ++ nl);
           Stream.EvEnd])
     = [Stream.DONE_event].
Proof. split; vm_compute; reflexivity. Qed.

(** ** The model table *)

Section MapperFacts.

Import ModelMapper.

(** Away from the names of [Object.prototype] the lookup is the table
    with its fallback. *)
Lemma nimModel_plain (model : string) :
  mem model Object_prototype = false ->
  nimModel model
  = Identifier match assoc model MODEL_MAPPING with
               | Some s => s
               | None => FALLBACK_MODEL
               end.
Proof.
  intros H. unfold nimModel, resolve, lookup.
  destruct (assoc model MODEL_MAPPING) as [s|] eqn:E.
  - destruct s as [|c s]; [|reflexivity].
    exfalso. revert E. unfold MODEL_MAPPING. simpl.
    repeat (destruct (String.eqb model _); [discriminate|]). discriminate.
  - now rewrite H.
Qed.

Lemma fallback_not_mapped :
  Forall (fun entry => snd entry <> FALLBACK_MODEL) MODEL_MAPPING.
Proof. repeat constructor; discriminate. Qed.

(** The earlier listing has no fallback at all. *)
Lemma nimModel_earlier_unknown :
  nimModel_earlier "unknown-model-xyz" = None.
Proof. reflexivity. Qed.

End MapperFacts.

(** C6, at the input where the code departs from it.  The name
    ["constructor"] is not registered, and the lookup answers with the
    member that the table inherits from [Object.prototype], not with the
    fallback identifier; so do the other inherited names. *)
Theorem nimModel_inherited_name :
  ModelMapper.registered "constructor" = false
  /\ ModelMapper.nimModel "constructor" = ModelMapper.Builtin "constructor"
  /\ Forall (fun name => ModelMapper.registered name = false
                         /\ ModelMapper.nimModel name = ModelMapper.Builtin name)
            ModelMapper.Object_prototype
  /\ ModelMapper.nimModel "unknown-model-xyz"
     = ModelMapper.Identifier ModelMapper.FALLBACK_MODEL.
Proof. repeat split; repeat constructor. Qed.

(** ** The non-streaming path *)

Section NonStreamFacts.

Import NonStream.
Context {rt : Runtime}.
Variable show : bool.

Local Abbreviation jsvalue := (value number).

Lemma transcode_choice_ok (c : jsvalue) (o : choice_out) :
  transcode_choice show c = Ok o ->
  index o = get_own c "index"
  /\ finish_reason o = get_own c "finish_reason"
  /\ role (message o) = "assistant".
Proof.
  unfold transcode_choice.
  destruct c; simpl; try discriminate;
    destruct (message_content show _) as [t|]; simpl; try discriminate;
    intros H; injection H as <-; repeat split.
Qed.

Lemma mapM_ok (X Y : Type) (f : X -> result Y) (l : list X) (l' : list Y) :
  mapM f l = Ok l' -> Forall2 (fun a b => f a = Ok b) l l'.
Proof.
  revert l'. induction l as [|a l IH]; intros l'; simpl.
  - intros H. injection H as <-. constructor.
  - destruct (f a) as [b|] eqn:Ea; simpl; [|discriminate].
    destruct (mapM f l) as [bs|]; simpl; [|discriminate].
    intros H. injection H as <-. constructor; [assumption|now apply IH].
Qed.

Lemma mapM_throw (X Y : Type) (f : X -> result Y) (l : list X) :
  Exists (fun a => f a = Throw) l -> mapM f l = Throw.
Proof.
  induction 1 as [a l H|a l _ IH]; simpl.
  - now rewrite H.
  - rewrite IH. now destruct (f a).
Qed.

(** A choice without [message] (absent or null) stops the callback. *)
Lemma transcode_choice_headless (c : jsvalue) :
  nullish (get_opt (Some c) "message") = true ->
  transcode_choice show c = Throw.
Proof.
  unfold transcode_choice, message_content.
  destruct c as [| | | |es props|fields]; simpl; intros H;
    try reflexivity; try (now rewrite andb_false_r).
  - destruct (assoc "message" props) as [[]|]; simpl in H |- *;
      try discriminate; now rewrite andb_false_r.
  - destruct (assoc "message" fields) as [[]|]; simpl in H |- *;
      try discriminate; now rewrite andb_false_r.
Qed.

Lemma chat_completions_resolved (now later : Z) (model : option jsvalue)
    (data : jsvalue) (r : ChatResponse) :
  chat_completions show now later model (Resolved data)
  = {| status := 200; json := Completion r |} ->
  openaiResponse show now later model data = Ok r.
Proof.
  unfold chat_completions.
  destruct (ToString_opt model); simpl; [|discriminate].
  destruct (openaiResponse show now later model data); [|discriminate].
  intros H. now injection H as <-.
Qed.

End NonStreamFacts.

(** C7. Whenever the non-streaming handler answers with a completion, its
    [model] is the caller's own, its [usage] is the upstream's (an empty
    object when the upstream has none), and its choices are the upstream
    choices one for one, each with the upstream [index] and
    [finish_reason] and the role ["assistant"]. *)
Theorem chat_response_fields `{rt : Runtime}
    (show : bool) (now later : Z) (model : option (value number))
    (data : value number) (r : NonStream.ChatResponse) :
  NonStream.chat_completions show now later model (NonStream.Resolved data)
  = {| NonStream.status := 200; NonStream.json := NonStream.Completion r |} ->
  NonStream.model r = model
  /\ (get_own data "usage" = None -> NonStream.usage r = VObj [])
  /\ (forall u, get_own data "usage" = Some u -> u <> VNull ->
                NonStream.usage r = u)
  /\ exists cs props,
       get_own data "choices" = Some (VArr cs props)
       /\ Forall2
            (fun c o =>
               NonStream.index o = get_own c "index"
               /\ NonStream.finish_reason o = get_own c "finish_reason"
               /\ NonStream.role (NonStream.message o) = "assistant")
            cs (NonStream.choices r).
Proof.
  intros H. apply chat_completions_resolved in H.
  unfold NonStream.openaiResponse in H.
  destruct data as [| | | |es ps|fs]; simpl in H; try discriminate.
  - destruct (assoc "choices" ps) as [[| | | |cs props|]|] eqn:Ec;
      simpl in H; try discriminate.
    destruct (assoc "map" props); [discriminate|].
    destruct (mapM _ cs) as [outs|] eqn:Em; simpl in H; [|discriminate].
    injection H as <-. simpl. repeat split.
    + now intros ->.
    + intros u -> Hu. now destruct u.
    + exists cs, props. split; [exact Ec|].
      eapply Forall2_impl; [|exact (mapM_ok _ _ _ _ _ Em)].
      intros c o. apply transcode_choice_ok.
  - destruct (assoc "choices" fs) as [[| | | |cs props|]|] eqn:Ec;
      simpl in H; try discriminate.
    destruct (assoc "map" props); [discriminate|].
    destruct (mapM _ cs) as [outs|] eqn:Em; simpl in H; [|discriminate].
    injection H as <-. simpl. repeat split.
    + now intros ->.
    + intros u -> Hu. now destruct u.
    + exists cs, props. split; [exact Ec|].
      eapply Forall2_impl; [|exact (mapM_ok _ _ _ _ _ Em)].
      intros c o. apply transcode_choice_ok.
Qed.

Lemma chat_response_fields_witness :
  NonStream.chat_completions (rt := Fixture.runtime) SHOW_REASONING
    1700000000123%Z 1700000000124%Z (Some (VStr "gpt-4"))
    (Fixture.resolved Fixture.one_choice_body)
  = {| NonStream.status := 200;
       NonStream.json := NonStream.Completion Fixture.one_choice_response |}
  /\ NonStream.model Fixture.one_choice_response = Some (VStr "gpt-4")
  /\ NonStream.usage Fixture.one_choice_response = VObj [].
Proof.
  assert (E : NonStream.chat_completions (rt := Fixture.runtime) SHOW_REASONING
                1700000000123%Z 1700000000124%Z (Some (VStr "gpt-4"))
                (Fixture.resolved Fixture.one_choice_body)
              = {| NonStream.status := 200;
                   NonStream.json :=
                     NonStream.Completion Fixture.one_choice_response |})
    by reflexivity.
  split; [exact E|].
  destruct (chat_response_fields (rt := Fixture.runtime) _ _ _ _ _ _ E)
    as [Hm [Hu _]].
  split; [exact Hm|]. apply Hu. reflexivity.
Defined.

(** C10. When the upstream body has no [choices] array, or one of its
    choices has no [message] (absent or null), the non-streaming handler
    answers with status 500 and the one error body, the same answer as
    when the upstream call itself fails; no completion is sent. *)
Theorem malformed_upstream_body `{rt : Runtime}
    (show : bool) (now later : Z) (model : option (value number))
    (data : value number) :
  (forall cs props, get_own data "choices" <> Some (VArr cs props))
  \/ (exists cs props,
        get_own data "choices" = Some (VArr cs props)
        /\ Exists (fun c => nullish (get_opt (Some c) "message") = true) cs) ->
  NonStream.chat_completions show now later model (NonStream.Resolved data)
  = {| NonStream.status := 500;
       NonStream.json := NonStream.ErrorBody "Upstream NIM error" "proxy_error" |}
  /\ NonStream.chat_completions show now later model (NonStream.Resolved data)
     = NonStream.chat_completions show now later model NonStream.Rejected.
Proof.
  intros H.
  assert (E : NonStream.openaiResponse show now later model data = Throw).
  { unfold NonStream.openaiResponse. destruct H as [H|[cs [props [Hc Hx]]]].
    - destruct data as [| | | |es ps|fs]; simpl in H |- *; try reflexivity.
      + destruct (assoc "choices" ps) as [[| | | |cs props|]|]; simpl;
          try reflexivity. now destruct (H cs props).
      + destruct (assoc "choices" fs) as [[| | | |cs props|]|]; simpl;
          try reflexivity. now destruct (H cs props).
    - assert (Hg : get (Some data) "choices" = Ok (Some (VArr cs props))).
      { destruct data; simpl in Hc |- *; try discriminate; now rewrite Hc. }
      rewrite Hg. simpl.
      destruct (assoc "map" props); [reflexivity|].
      rewrite mapM_throw; [reflexivity|].
      eapply Exists_impl; [|exact Hx]. intros c.
      apply transcode_choice_headless. }
  unfold NonStream.chat_completions. rewrite E.
  destruct (ToString_opt model); split; reflexivity.
Qed.

Lemma malformed_upstream_body_witness :
  NonStream.chat_completions (rt := Fixture.runtime) SHOW_REASONING
    1700000000123%Z 1700000000124%Z (Some (VStr "gpt-4"))
    (Fixture.resolved Fixture.error_body)
  = NonStream.proxy_error
  /\ NonStream.chat_completions (rt := Fixture.runtime) SHOW_REASONING
       1700000000123%Z 1700000000124%Z (Some (VStr "gpt-4"))
       (Fixture.resolved Fixture.headless_body)
     = NonStream.proxy_error.
Proof.
  split.
  - apply (malformed_upstream_body (rt := Fixture.runtime) SHOW_REASONING
             1700000000123%Z 1700000000124%Z (Some (VStr "gpt-4")) Fixture.error_body).
    left. intros cs props. discriminate.
  - apply (malformed_upstream_body (rt := Fixture.runtime) SHOW_REASONING
             1700000000123%Z 1700000000124%Z (Some (VStr "gpt-4")) Fixture.headless_body).
    right. eexists. eexists. split; [reflexivity|].
    apply Exists_cons_tl. apply Exists_cons_hd. reflexivity.
Defined.

(** ** The theorems of the reassembler at concrete streams *)

Lemma reassembler_complete_lines_example :
  Stream.feed (rt := Fixture.runtime) ""
    [Fixture.chunk ("data: a" ++ nl ++ "da"); Fixture.chunk ("ta: b" ++ nl ++ "fra")]
  = (["data: a"; "data: b"], "fra")
  /\ exists tl b,
       Stream.feed (rt := Fixture.runtime) ""
         ([Fixture.chunk ("data: a" ++ nl ++ "da");
           Fixture.chunk ("ta: b" ++ nl ++ "fra")]
          ++ [Fixture.chunk ("g" ++ nl ++ "tail")])%list
       = ((["data: a"; "data: b"] ++ ("fra" ++ "g")%string :: tl)%list, b)
       /\ (tl ++ [b])%list = JSString.split "tail".
Proof.
  destruct (reassembler_complete_lines (rt := Fixture.runtime)
              [Fixture.chunk ("data: a" ++ nl ++ "da");
               Fixture.chunk ("ta: b" ++ nl ++ "fra")]
              ["data: a"; "data: b"] "fra") as [Hfeed [_ Hnext]].
  - repeat constructor.
  - reflexivity.
  - reflexivity.
  - split; [exact Hfeed|].
    apply (Hnext (Fixture.chunk ("g" ++ nl ++ "tail")) "g" "tail");
      reflexivity.
Defined.

Lemma residual_fragment_discarded_witness :
  Stream.written
    (Stream.run (rt := Fixture.runtime) SHOW_REASONING
       (map Stream.EvData
          ([Fixture.chunk (Fixture.data_line Fixture.late_event ++ nl)]
           ++ [Fixture.chunk (Fixture.data_line Fixture.no_delta_event)])
        ++ [Stream.EvEnd]))
  = Stream.written
      (Stream.run (rt := Fixture.runtime) SHOW_REASONING
         (map Stream.EvData
            [Fixture.chunk (Fixture.data_line Fixture.late_event ++ nl)]))
  /\ Stream.written
       (Stream.run (rt := Fixture.runtime) SHOW_REASONING
          (map Stream.EvData
             ([] ++ [Fixture.chunk (Fixture.data_line Fixture.late_event ++ nl
                                    ++ Fixture.data_line Fixture.no_delta_event)])
           ++ [Stream.EvEnd]))
     = Stream.written
         (Stream.run (rt := Fixture.runtime) SHOW_REASONING
            (map Stream.EvData
               ([] ++ [Fixture.chunk
                         (Fixture.data_line Fixture.late_event ++ nl)]))).
Proof.
  destruct (residual_fragment_discarded (rt := Fixture.runtime) SHOW_REASONING
              [Fixture.chunk (Fixture.data_line Fixture.late_event ++ nl)])
    as [_ [Hlast _]].
  destruct (residual_fragment_discarded (rt := Fixture.runtime) SHOW_REASONING
              []) as [_ [_ Htail]].
  split.
  - apply (Hlast (Fixture.chunk (Fixture.data_line Fixture.no_delta_event))).
    reflexivity.
  - apply (Htail
             (Fixture.chunk (Fixture.data_line Fixture.late_event ++ nl
                             ++ Fixture.data_line Fixture.no_delta_event))
             (Fixture.chunk (Fixture.data_line Fixture.late_event ++ nl))
             (Fixture.data_line Fixture.late_event)
             (Fixture.data_line Fixture.no_delta_event)); reflexivity.
Defined.

(** ** Chunk boundaries inside a character *)

Section DecodingFacts.

Import Utf8.

(** Bytes below 128 decode to themselves. *)
Lemma toString_ascii (s : string) : ascii_only s = true -> toString s = s.
Proof.
  unfold toString. induction s as [|c s IH]; simpl; [reflexivity|].
  intros H. apply andb_true_iff in H as [Hc Hs].
  unfold lead. rewrite Hc. simpl. now rewrite (IH Hs).
Qed.

(** So for chunks of such bytes the bytes themselves are reassembled. *)
Lemma reassembler_ascii_chunks
    (chunks : list string) (ls : list string) (frag : string) :
  Forall (fun c => ascii_only c = true) chunks ->
  Forall (fun l => JSString.no_newline l = true) ls ->
  JSString.no_newline frag = true ->
  JSString.concat chunks = JSString.terminated ls ++ frag ->
  Stream.feed (rt := Fixture.runtime) "" chunks = (ls, frag).
Proof.
  intros Ha Hls Hf Hcat.
  assert (E : JSString.concat (map toString chunks) = JSString.concat chunks).
  { clear -Ha. induction Ha as [|c cs Hc _ IH]; simpl; [reflexivity|].
    now rewrite IH, (toString_ascii c Hc). }
  apply (reassembler_complete_lines (rt := Fixture.runtime) chunks ls frag
           Hls Hf).
  exact (eq_trans E Hcat).
Qed.

End DecodingFacts.

(** C1, at the input where the code departs from it.  The bytes
    [E2 82 AC 0A], the line of the euro sign, arrive as the chunks [E2 82]
    and [AC 0A].  Their concatenation is that one complete line, and in a
    single chunk the reassembler hands it on; cut in two, each chunk is
    decoded on its own by [chunk.toString()] (line 212), so the accumulator
    holds U+FFFD after the first chunk instead of the fragment, and the
    line handed on is two U+FFFD and not the euro sign. *)
Theorem split_character_garbled :
  Fixture.euro_head ++ Fixture.euro_tail = Fixture.euro ++ nl
  /\ Stream.feed (rt := Fixture.runtime) "" [Fixture.chunk (Fixture.euro ++ nl)]
     = ([Fixture.euro], "")
  /\ Stream.feed (rt := Fixture.runtime) "" [Fixture.chunk Fixture.euro_head]
     = ([], Utf8.replacement)
  /\ Stream.feed (rt := Fixture.runtime) ""
       [Fixture.chunk Fixture.euro_head; Fixture.chunk Fixture.euro_tail]
     = ([Utf8.replacement ++ Utf8.replacement], "")
  /\ Utf8.replacement ++ Utf8.replacement <> Fixture.euro.
Proof. repeat split; try reflexivity. discriminate. Qed.

(* ------------------------------------------------------------------ *)
(** * Further properties of the code *)

(** ** The reassembler over any chunks *)

Section ReassemblyFacts.

Import JSString Stream.
Context {rt : Runtime}.

(** Joining what [split] gives puts the text back. *)
Lemma split_join (s : string) :
  forall l f, split s = (l ++ [f])%list -> terminated l ++ f = s.
Proof.
  induction s as [|c s IH]; intros l f E.
  - simpl in E. destruct l as [|a l].
    + now injection E as <-.
    + destruct l; discriminate.
  - simpl in E. destruct (Ascii.eqb c newline) eqn:Ec.
    + apply Ascii.eqb_eq in Ec. subst c.
      destruct l as [|a l].
      * injection E as _ E. now destruct (split_nonempty s).
      * injection E as <- E. simpl. f_equal. now apply IH.
    + destruct (split s) as [|h t] eqn:Es; [now destruct (split_nonempty s)|].
      destruct l as [|a l].
      * simpl in E. injection E as <- ->. simpl. f_equal.
        exact (IH [] h eq_refl).
      * simpl in E. injection E as <- ->. simpl. f_equal.
        exact (IH (h :: l) f eq_refl).
Qed.

Lemma step_buffer_no_newline (show : bool) (st : connection) (ev : event) :
  no_newline (buffer st) = true ->
  no_newline (buffer (step show st ev)) = true.
Proof.
  intros H. destruct ev as [c| |]; simpl; try assumption.
  unfold on_data.
  pose proof (reassemble_buffer_no_newline (buffer st) c) as R.
  now destruct (reassemble (buffer st) c).
Qed.

Lemma reassemble_lines_no_newline (b : string) (c : Buffer) :
  Forall (fun l => no_newline l = true) (fst (reassemble b c)).
Proof.
  destruct (split_last (b ++ Buffer_toString c)) as [l [f E]].
  rewrite (reassemble_split _ _ _ _ E). simpl.
  pose proof (split_parts_no_newline (b ++ Buffer_toString c)) as H.
  rewrite E in H. now apply Forall_app in H as [H _].
Qed.

(** The lines handed on and the accumulator are the split of the whole
    text. *)
Lemma feed_is_split (chunks : list Buffer) :
  split (concat (map Buffer_toString chunks))
  = (fst (feed "" chunks) ++ [snd (feed "" chunks)])%list.
Proof.
  destruct (feed "" chunks) as [ls b] eqn:E.
  exact (feed_split chunks "" ls b E "" [] eq_refl).
Qed.

End ReassemblyFacts.

(** X1. Whatever the chunks, the lines handed on followed by the
    accumulator are the split of the chunks' texts put end to end: where
    the chunk boundaries fall plays no part.  And joined again with their
    newlines they give that text back: nothing is lost, nothing comes
    twice. *)
Theorem reassembler_depends_on_text `{rt : Runtime} (chunks : list Buffer) :
  JSString.split (JSString.concat (map Buffer_toString chunks))
  = (fst (Stream.feed "" chunks) ++ [snd (Stream.feed "" chunks)])%list
  /\ JSString.terminated (fst (Stream.feed "" chunks))
     ++ snd (Stream.feed "" chunks)
     = JSString.concat (map Buffer_toString chunks).
Proof.
  pose proof (feed_is_split chunks) as H.
  split; [exact H|]. now apply split_join.
Qed.

(** X2. The accumulator never holds a newline, after any events; and no
    line handed to the loop holds one. *)
Theorem accumulator_holds_no_newline `{rt : Runtime}
    (show : bool) (evs : list Stream.event) (chunks : list Buffer) :
  JSString.no_newline (Stream.buffer (Stream.run show evs)) = true
  /\ Forall (fun l => JSString.no_newline l = true)
            (fst (Stream.feed "" chunks)).
Proof.
  split.
  - induction evs as [|ev evs IH] using rev_ind; [reflexivity|].
    rewrite run_snoc. now apply step_buffer_no_newline.
  - generalize EmptyString as b. induction chunks as [|c cs IH]; intros b.
    + constructor.
    + simpl. pose proof (reassemble_lines_no_newline b c) as H.
      destruct (Stream.reassemble b c) as [l b']. specialize (IH b').
      destruct (Stream.feed b' cs) as [more final]. simpl in *.
      apply Forall_app. now split.
Qed.

(** ** The loop over the lines *)

Section LoopFacts.

Import JSString Stream Lines.
Context {rt : Runtime}.
Variable show : bool.

(** Lines before any marker line are consumed one by one. *)
Lemma process_app (pre rest written : list string) :
  Forall (fun l => marker l = false) pre ->
  process show (pre ++ rest) written
  = process show rest (process show pre written).
Proof.
  intros H. revert written.
  induction H as [|line pre Hl _ IH]; intros written; [reflexivity|].
  rewrite <- app_comm_cons, !process_cons. unfold marker in Hl.
  destruct (startsWith "data:" line); simpl negb; cbv iota.
  - simpl in Hl. rewrite Hl. apply IH.
  - apply IH.
Qed.

Lemma process_from (lines written : list string) :
  process show lines written = (written ++ process show lines [])%list.
Proof.
  revert written. induction lines as [|line rest IH]; intros written.
  - simpl. now rewrite app_nil_r.
  - rewrite !process_cons.
    destruct (startsWith "data:" line); simpl negb; cbv iota; [|apply IH].
    destruct (includes "[DONE]" line); [reflexivity|].
    unfold try_catch. destruct (transcode show line) as [out|].
    + rewrite (IH (written ++ [out])%list), (IH ([] ++ [out])%list).
      now rewrite <- app_assoc.
    + apply IH.
Qed.

Lemma on_data_parts (st : connection) (c : Buffer) :
  buffer (on_data show st c) = snd (reassemble (buffer st) c)
  /\ written (on_data show st c)
     = process show (fst (reassemble (buffer st) c)) (written st).
Proof. unfold on_data. now destruct (reassemble (buffer st) c). Qed.

Lemma feed_cons (b : string) (c : Buffer) (cs : list Buffer) :
  fst (feed b (c :: cs))
  = (fst (reassemble b c) ++ fst (feed (snd (reassemble b c)) cs))%list.
Proof.
  simpl. destruct (reassemble b c) as [l b']. simpl.
  now destruct (feed b' cs).
Qed.

(** The texts written by a run of chunks whose lines hold no marker line
    are those the loop writes for all the lines at once. *)
Lemma run_marker_free (chunks : list Buffer) :
  forall st,
    Forall (fun l => marker l = false) (fst (feed (buffer st) chunks)) ->
    written (fold_left (step show) (map EvData chunks) st)
    = process show (fst (feed (buffer st) chunks)) (written st).
Proof.
  induction chunks as [|c cs IH]; intros st H; [reflexivity|].
  rewrite feed_cons in H |- *. apply Forall_app in H as [Hl Hm].
  destruct (on_data_parts st c) as [Eb Ew].
  change (fold_left (step show) (map EvData (c :: cs)) st)
    with (fold_left (step show) (map EvData cs) (on_data show st c)).
  rewrite IH; rewrite Eb; [|assumption].
  rewrite Ew. now rewrite process_app.
Qed.

End LoopFacts.

(** X3. Lines that do not begin with ["data:"] (comments, [event:] lines,
    the blank lines between events) change nothing: the loop writes what
    it writes for the ["data:"] lines alone. *)
Theorem other_lines_ignored `{rt : Runtime}
    (show : bool) (lines written : list string) :
  Stream.process show lines written
  = Stream.process show (filter (JSString.startsWith "data:") lines) written.
Proof.
  revert written. induction lines as [|line rest IH]; intros written;
    [reflexivity|].
  cbn [filter]. destruct (JSString.startsWith "data:" line) eqn:E.
  - rewrite !process_cons, E. simpl negb. cbv iota.
    destruct (JSString.includes "[DONE]" line); [reflexivity|]. apply IH.
  - rewrite process_cons, E. simpl negb. cbv iota. apply IH.
Qed.

(** X4. Over the texts the chunks decode to, one chunk at a time: when
    no complete line of these texts put end to end is a marker line, what
    the connection has written after the chunks is what the loop writes
    for all the complete lines of that text, and the accumulator is its
    unterminated tail; so two sequences of chunks whose decoded texts put
    end to end are the same text write the same and keep the same.  (Of
    the bytes this is not so: a chunk boundary inside a character changes
    the decoded texts.) *)
Theorem output_depends_on_text `{rt : Runtime}
    (show : bool) (chunks : list Buffer) (ls : list string) (frag : string) :
  JSString.split (JSString.concat (map Buffer_toString chunks))
  = (ls ++ [frag])%list ->
  Forall (fun l => Lines.marker l = false) ls ->
  (Stream.written (Stream.run show (map Stream.EvData chunks))
   = Stream.process show ls []
   /\ Stream.buffer (Stream.run show (map Stream.EvData chunks)) = frag)
  /\ (forall chunks' : list Buffer,
         JSString.concat (map Buffer_toString chunks')
         = JSString.concat (map Buffer_toString chunks) ->
         Stream.written (Stream.run show (map Stream.EvData chunks'))
         = Stream.written (Stream.run show (map Stream.EvData chunks))
         /\ Stream.buffer (Stream.run show (map Stream.EvData chunks'))
            = Stream.buffer (Stream.run show (map Stream.EvData chunks))).
Proof.
  intros Hs Hm.
  assert (H : forall cs : list Buffer,
             JSString.split (JSString.concat (map Buffer_toString cs))
             = (ls ++ [frag])%list ->
             Stream.written (Stream.run show (map Stream.EvData cs))
             = Stream.process show ls []
             /\ Stream.buffer (Stream.run show (map Stream.EvData cs)) = frag).
  { intros cs Hc.
    pose proof (feed_is_split cs) as H.
    rewrite Hc in H. apply app_inj_tail in H as [Hl Hb].
    split.
    - unfold Stream.run. rewrite run_marker_free; simpl; now rewrite <- Hl.
    - unfold Stream.run. rewrite run_buffer. simpl. now rewrite <- Hb. }
  destruct (H chunks Hs) as [Hw Hb].
  split; [now split|].
  intros chunks' He. rewrite <- He in Hs.
  destruct (H chunks' Hs) as [Hw' Hb'].
  split; congruence.
Qed.

(** A text cut into three chunks inside its lines, and the same text in
    one chunk. *)
Lemma output_depends_on_text_witness :
  Stream.written
    (Stream.run (rt := Fixture.runtime) SHOW_REASONING
       (map Stream.EvData
          [Fixture.chunk "data: {oo"; Fixture.chunk ("ps" ++ nl ++ "da");
           Fixture.chunk ("ta:" ++ Fixture.payload Fixture.late_event
                          ++ nl ++ "dat")]))
  = Stream.process (rt := Fixture.runtime) SHOW_REASONING
      ["data: {oops"; Fixture.data_line Fixture.late_event] []
  /\ Stream.written
       (Stream.run (rt := Fixture.runtime) SHOW_REASONING
          (map Stream.EvData
             [Fixture.chunk ("data: {oops" ++ nl
                             ++ Fixture.data_line Fixture.late_event
                             ++ nl ++ "dat")]))
     = Stream.written
         (Stream.run (rt := Fixture.runtime) SHOW_REASONING
            (map Stream.EvData
               [Fixture.chunk "data: {oo"; Fixture.chunk ("ps" ++ nl ++ "da");
                Fixture.chunk ("ta:" ++ Fixture.payload Fixture.late_event
                               ++ nl ++ "dat")])).
Proof.
  destruct (output_depends_on_text (rt := Fixture.runtime) SHOW_REASONING
              [Fixture.chunk "data: {oo"; Fixture.chunk ("ps" ++ nl ++ "da");
               Fixture.chunk ("ta:" ++ Fixture.payload Fixture.late_event
                              ++ nl ++ "dat")]
              ["data: {oops"; Fixture.data_line Fixture.late_event] "dat")
    as [[Hw _] Hc].
  - reflexivity.
  - repeat constructor.
  - split; [exact Hw|].
    apply (Hc [Fixture.chunk ("data: {oops" ++ nl
                              ++ Fixture.data_line Fixture.late_event
                              ++ nl ++ "dat")]).
    reflexivity.
Defined.

(** X5. The first ["data:"] line that holds the text ["[DONE]"] anywhere,
    be it inside the JSON of an event, is answered by the marker event,
    and the lines after it in the chunk are dropped unread. *)
Theorem first_marker_ends_chunk `{rt : Runtime}
    (show : bool) (pre : list string) (line : string)
    (rest written : list string) :
  Forall (fun l => Lines.marker l = false) pre ->
  Lines.marker line = true ->
  Stream.process show (pre ++ line :: rest) written
  = (Stream.process show pre written ++ [Stream.DONE_event])%list.
Proof.
  intros Hpre Hl. rewrite process_app by assumption.
  rewrite process_cons. unfold Lines.marker in Hl.
  apply andb_true_iff in Hl as [Hp Hd]. now rewrite Hp, Hd.
Qed.

Lemma first_marker_ends_chunk_witness :
  Stream.process (rt := Fixture.runtime) SHOW_REASONING
    ([Fixture.data_line Fixture.late_event]
     ++ Fixture.data_line Samples.marker_talk_event
     :: [Fixture.data_line Fixture.no_delta_event]) []
  = (Stream.process (rt := Fixture.runtime) SHOW_REASONING
       [Fixture.data_line Fixture.late_event] []
     ++ [Stream.DONE_event])%list.
Proof.
  apply (first_marker_ends_chunk (rt := Fixture.runtime) SHOW_REASONING).
  - repeat constructor.
  - reflexivity.
Defined.

(** X6. What has been written stays: after further events the texts
    written are the earlier ones followed by new ones, and the ["end"] and
    ["error"] events add none. *)
Theorem written_only_grows `{rt : Runtime}
    (show : bool) (evs more : list Stream.event) :
  exists outs,
    Stream.written (Stream.run show (evs ++ more))
    = (Stream.written (Stream.run show evs) ++ outs)%list
    /\ (Forall (fun ev => match ev with
                          | Stream.EvData _ => False
                          | _ => True
                          end) more -> outs = []).
Proof.
  induction more as [|ev more IH] using rev_ind.
  - exists []. rewrite !app_nil_r. now split.
  - destruct IH as [outs [E Hq]].
    rewrite app_assoc, run_snoc. destruct ev as [c| |]; simpl.
    + unfold Stream.on_data.
      destruct (Stream.reassemble _ c) as [l b]. simpl.
      rewrite process_from, E.
      exists (outs ++ Stream.process show l [])%list.
      split; [now rewrite app_assoc|].
      intros F. apply Forall_app in F as [_ F]. inversion F as [|? ? K]; contradiction.
    + exists outs. split; [exact E|].
      intros F. apply Forall_app in F as [F _]. now apply Hq.
    + exists outs. split; [exact E|].
      intros F. apply Forall_app in F as [F _]. now apply Hq.
Qed.

(** X7. One chunk never makes the loop write more texts than it holds
    ["data:"] lines. *)
Theorem writes_bounded_by_data_lines `{rt : Runtime}
    (show : bool) (lines written : list string) :
  length (Stream.process show lines written)
  <= length written + length (filter (JSString.startsWith "data:") lines).
Proof.
  revert written. induction lines as [|line rest IH]; intros written.
  - simpl. lia.
  - rewrite process_cons. cbn [filter].
    destruct (JSString.startsWith "data:" line); simpl negb; cbv iota.
    + cbn [length]. destruct (JSString.includes "[DONE]" line).
      * rewrite length_app. cbn [length]. lia.
      * unfold Stream.try_catch.
        destruct (Stream.transcode show line) as [out|].
        -- specialize (IH (written ++ [out])%list).
           rewrite length_app in IH. cbn [length] in IH. lia.
        -- specialize (IH written). lia.
    + apply IH.
Qed.

(** ** The rewriting of an event, beyond its delta *)

Section RewriteFacts.

Import Stream Lines.
Context {rt : Runtime}.

Local Abbreviation jsvalue := (value number).

Lemma assoc_set_other (A : Type) (k k' : string) (v : A)
    (fs : list (string * A)) :
  k <> k' -> assoc k (assoc_set k' v fs) = assoc k fs.
Proof.
  intros Hk. induction fs as [|[k0 v0] fs IH]; simpl.
  - apply String.eqb_neq in Hk. now rewrite Hk.
  - destruct (String.eqb k' k0) eqn:E; simpl.
    + apply String.eqb_eq in E. subst k0.
      apply String.eqb_neq in Hk. now rewrite Hk.
    + now rewrite IH.
Qed.

Lemma assoc_set_twice (A : Type) (k : string) (v : A)
    (fs : list (string * A)) :
  assoc_set k v (assoc_set k v fs) = assoc_set k v fs.
Proof.
  induction fs as [|[k0 v0] fs IH]; simpl.
  - now rewrite String.eqb_refl.
  - destruct (String.eqb k k0) eqn:E; simpl.
    + now rewrite String.eqb_refl.
    + now rewrite E, IH.
Qed.

(** What a successful assignment of line 234 has found and done. *)
Lemma assign_delta_shape (parsed d parsed' : jsvalue) :
  assign_delta parsed d = Ok parsed' ->
  exists cs choice choice',
    get_own parsed "choices" = Some cs
    /\ get_first cs = Some choice
    /\ set_own (Some choice) "delta" d = Ok choice'
    /\ parsed' = with_own parsed "choices" (with_first cs choice').
Proof.
  unfold assign_delta. intros H.
  assert (Hn : parsed <> VNull) by (intros ->; discriminate H).
  assert (Hg : get (Some parsed) "choices" = Ok (get_own parsed "choices"))
    by (destruct parsed; try reflexivity; contradiction).
  rewrite Hg, bind_ok in H.
  destruct (get_own parsed "choices") as [cs|] eqn:Ecs; [|discriminate H].
  assert (Hc : cs <> VNull) by (intros ->; discriminate H).
  assert (Hf : first (Some cs) = Ok (get_first cs))
    by (destruct cs; try reflexivity; contradiction).
  rewrite Hf, bind_ok in H.
  destruct (get_first cs) as [choice|] eqn:Efs; [|discriminate H].
  destruct (set_own (Some choice) "delta" d) as [choice'|] eqn:Es;
    [|discriminate H].
  rewrite bind_ok in H. injection H as <-.
  exists cs, choice, choice'. repeat split; try reflexivity; assumption.
Qed.

(** The content put into the rewritten delta is never [null]. *)
Lemma merge_not_null (show : bool) (delta content : jsvalue) :
  merge show delta = Ok content -> content <> VNull.
Proof.
  unfold merge.
  assert (Hc : forall x, coalesce x (VStr "") <> (VNull : jsvalue)).
  { intros [[]|]; discriminate. }
  destruct (show && _).
  - destruct (ToString _); simpl; [|discriminate].
    destruct (ToString _); simpl; [|discriminate].
    intros H. injection H as <-. discriminate.
  - intros H. injection H as <-. apply Hc.
Qed.

(** The [try] block is: parse, rewrite, serialize. *)
Lemma transcode_is_rewrite (show : bool) (line : string) :
  transcode show line
  = match JSON_parse (JSString.slice 5 line) with
    | None => Throw
    | Some parsed =>
        parsed' <- rewrite show parsed ;;
        Ok ("data: " ++ JSON_stringify parsed' ++ nl ++ nl)
    end.
Proof.
  unfold transcode, rewrite.
  destruct (JSON_parse (JSString.slice 5 line)) as [parsed|]; [|reflexivity].
  destruct (read_delta parsed) as [delta|]; [|reflexivity].
  rewrite !bind_ok.
  destruct (merge show delta) as [content|]; reflexivity.
Qed.

End RewriteFacts.

(** X8. The rewriting touches the delta of the first choice and nothing
    else: the other fields of the event, the other fields of the first
    choice (its [index], its [finish_reason]) and the other choices, with
    their deltas and reasoning as the upstream sent them, are as they
    were. *)
Theorem rewrite_keeps_the_rest `{rt : Runtime}
    (show : bool) (parsed parsed' : value number) :
  Lines.rewrite show parsed = Ok parsed' ->
  (forall name, name <> "choices" ->
                get_own parsed' name = get_own parsed name)
  /\ exists cs cs' choice choice',
       get_own parsed "choices" = Some cs
       /\ get_own parsed' "choices" = Some cs'
       /\ get_first cs = Some choice
       /\ get_first cs' = Some choice'
       /\ (forall name, name <> "delta" ->
                        get_own choice' name = get_own choice name)
       /\ ((exists es props,
              cs = VArr (choice :: es) props
              /\ cs' = VArr (choice' :: es) props)
           \/ (exists gs,
                 cs = VObj gs
                 /\ forall name, name <> "0" ->
                                 get_own cs' name = get_own cs name)).
Proof.
  unfold Lines.rewrite. intros H.
  destruct (Stream.read_delta parsed) as [delta|]; [|discriminate H].
  rewrite bind_ok in H.
  destruct (Stream.merge show delta) as [content|]; [|discriminate H].
  rewrite bind_ok in H.
  destruct (assign_delta_shape _ _ _ H)
    as [cs [choice [choice' [Hcs [Hfs [Hset ->]]]]]].
  assert (Hchoice : forall name, name <> "delta" ->
                                 get_own choice' name = get_own choice name).
  { intros name Hn.
    destruct choice; simpl in Hset; try discriminate Hset;
      injection Hset as <-; simpl; now apply assoc_set_other. }
  assert (Hfirst : get_first (with_first cs choice') = Some choice').
  { destruct cs as [| | |s|[|e es] ps|gs]; simpl in Hfs |- *;
      try discriminate Hfs.
    - destruct s; [discriminate Hfs|]. injection Hfs as <-.
      discriminate Hset.
    - reflexivity.
    - apply assoc_set_same. }
  split.
  - intros name Hn.
    destruct parsed; simpl in Hcs |- *; try discriminate Hcs;
      now apply assoc_set_other.
  - exists cs, (with_first cs choice'), choice, choice'.
    repeat split; try assumption.
    + destruct parsed; simpl in Hcs |- *; try discriminate Hcs;
        apply assoc_set_same.
    + destruct cs as [| | |s|[|e es] ps|gs]; simpl in Hfs |- *;
        try discriminate Hfs.
      * destruct s; [discriminate Hfs|]. injection Hfs as <-.
        discriminate Hset.
      * injection Hfs as ->. left. now exists es, ps.
      * right. exists gs. split; [reflexivity|].
        intros name Hn. simpl. now apply assoc_set_other.
Qed.

Lemma rewrite_keeps_the_rest_witness :
  Lines.rewrite (rt := Fixture.runtime) true Samples.two_choice_event
  = Ok (VObj [("id", VStr "e3");
              ("choices",
               VArr [VObj [("index", VNum 0%Z);
                           ("delta", VObj [("content", VStr "hi")]);
                           ("finish_reason", VNull)];
                     VObj [("index", VNum 1%Z);
                           ("delta",
                            VObj [("reasoning_content", VStr "r")])]] [])])
  /\ forall parsed',
       Lines.rewrite (rt := Fixture.runtime) true Samples.two_choice_event
       = Ok parsed' ->
       get_own parsed' "id" = Some (VStr "e3").
Proof.
  split; [reflexivity|].
  intros parsed' H.
  destruct (rewrite_keeps_the_rest (rt := Fixture.runtime) true
              Samples.two_choice_event parsed' H) as [Hkeep _].
  rewrite (Hkeep "id"); [reflexivity|discriminate].
Defined.

Section IdempotenceFacts.

Import Stream Lines.
Context {rt : Runtime}.

Local Abbreviation jsvalue := (value number).

Lemma first_some (v : jsvalue) :
  v <> VNull ->
  first (Some v) = Ok (get_first v) /\ first_opt (Some v) = get_first v.
Proof. destruct v; intros H; try contradiction; now split. Qed.

Lemma get_some (v : jsvalue) (name : string) :
  v <> VNull ->
  get (Some v) name = Ok (get_own v name)
  /\ get_opt (Some v) name = get_own v name.
Proof. destruct v; intros H; try contradiction; now split. Qed.

(** Where the throwing chain of line 234 finds a delta, the optional
    chain of line 225 finds the same. *)
Lemma first_delta_read_delta (parsed : jsvalue) (x : option jsvalue) :
  Shape.first_delta parsed = Ok x ->
  read_delta parsed = Ok (coalesce x (VObj [])).
Proof.
  unfold Shape.first_delta, read_delta.
  destruct (get (Some parsed) "choices") as [choices|]; [|discriminate].
  rewrite !bind_ok. intros H.
  destruct choices as [v|]; [|discriminate H].
  assert (Hv : v <> VNull) by (intros ->; discriminate H).
  destruct (first_some v Hv) as [E1 E2]. rewrite E1, bind_ok in H. rewrite E2.
  destruct (get_first v) as [w|]; [|discriminate H].
  assert (Hw : w <> VNull) by (intros ->; discriminate H).
  destruct (get_some w "delta" Hw) as [E3 E4]. rewrite E3 in H. rewrite E4.
  now injection H as <-.
Qed.

(** Assigning once more the delta that is there changes nothing. *)
Lemma assign_delta_again (parsed d parsed' : jsvalue) :
  assign_delta parsed d = Ok parsed' ->
  assign_delta parsed' d = Ok parsed'.
Proof.
  intros H.
  destruct (assign_delta_shape _ _ _ H)
    as [cs [choice [choice' [Hcs [Hfs [Hset ->]]]]]].
  unfold assign_delta.
  destruct parsed as [| | | |es props|fs]; simpl in Hcs; try discriminate Hcs;
    simpl; rewrite assoc_set_same; simpl;
    (destruct cs as [| | |s|[|e l] ps|gs]; simpl in Hfs |- *;
       try discriminate Hfs;
       [ destruct s; [discriminate Hfs|]; injection Hfs as <-;
         discriminate Hset
       | injection Hfs as -> | rewrite assoc_set_same; simpl ]);
    (destruct choice as [| | | |ces cps|cfs]; simpl in Hset;
       try discriminate Hset; injection Hset as <-; simpl;
       rewrite ?assoc_set_twice; reflexivity).
Qed.

End IdempotenceFacts.

(** X9. Rewriting is idempotent: an event that has been rewritten, under
    either state of the toggle, is rewritten to itself, under either state
    of the toggle.  So a second proxy of the same kind behind the first
    passes its events on as they are. *)
Theorem rewrite_idempotent `{rt : Runtime}
    (show show' : bool) (parsed parsed' : value number) :
  Lines.rewrite show parsed = Ok parsed' ->
  Lines.rewrite show' parsed' = Ok parsed'.
Proof.
  unfold Lines.rewrite. intros H.
  destruct (Stream.read_delta parsed) as [delta|]; [|discriminate H].
  rewrite bind_ok in H.
  destruct (Stream.merge show delta) as [content|] eqn:Em; [|discriminate H].
  rewrite bind_ok in H.
  pose proof (merge_not_null _ _ _ Em) as Hn.
  rewrite (first_delta_read_delta parsed' _
             (assign_delta_first_delta parsed _ parsed' H)).
  simpl coalesce. rewrite bind_ok.
  assert (Hm : Stream.merge show' (VObj [("content", content)]) = Ok content).
  { unfold Stream.merge. simpl. rewrite andb_false_r.
    destruct content; try reflexivity. contradiction. }
  rewrite Hm, bind_ok. exact (assign_delta_again _ _ _ H).
Qed.

Lemma rewrite_idempotent_witness :
  exists parsed',
    Lines.rewrite (rt := Fixture.runtime) true Fixture.late_event = Ok parsed'
    /\ Lines.rewrite (rt := Fixture.runtime) SHOW_REASONING parsed' = Ok parsed'.
Proof.
  eexists. split; [reflexivity|].
  apply (rewrite_idempotent (rt := Fixture.runtime) true SHOW_REASONING
           Fixture.late_event).
  reflexivity.
Defined.

(** ** The non-streaming answer, exactly *)

Section CompletionFacts.

Import NonStream Lines.
Context {rt : Runtime}.

Local Abbreviation jsvalue := (value number).

Lemma mapM_ok_iff (X Y : Type) (f : X -> result Y) (l : list X) :
  (exists l', mapM f l = Ok l') <-> Forall (fun a => exists b, f a = Ok b) l.
Proof.
  induction l as [|a l IH]; simpl.
  - split; [constructor|]. intros _. now exists [].
  - split.
    + intros [l' H]. destruct (f a) as [b|] eqn:Ea; [|discriminate H].
      rewrite bind_ok in H.
      destruct (mapM f l) as [bs|]; [|discriminate H].
      constructor; [now exists b|]. apply IH. now exists bs.
    + intros H. inversion H as [|? ? [b Hb] Hl]; subst.
      apply IH in Hl as [bs Hbs]. exists (b :: bs).
      now rewrite Hb, bind_ok, Hbs.
Qed.

(** With the toggle off the callback of [map] gets through exactly the
    usable choices. *)
Lemma transcode_choice_off (c : jsvalue) :
  (exists o, transcode_choice false c = Ok o) <-> usable_choice c = true.
Proof.
  unfold transcode_choice, message_content, usable_choice.
  destruct c as [| | | |es ps|fs]; simpl;
    try (split; [intros [o H]; discriminate H|discriminate]).
  - destruct (assoc "message" ps) as [[]|]; simpl;
      (split; [intros [o H]; try discriminate H; reflexivity
              |intros H; try discriminate H; eexists; reflexivity]).
  - destruct (assoc "message" fs) as [[]|]; simpl;
      (split; [intros [o H]; try discriminate H; reflexivity
              |intros H; try discriminate H; eexists; reflexivity]).
Qed.

Lemma transcode_choice_off_content (c : jsvalue) (o : choice_out) :
  transcode_choice false c = Ok o ->
  content (message o) = get_opt (get_own c "message") "content".
Proof.
  unfold transcode_choice, message_content.
  destruct c as [| | | |es ps|fs]; simpl; try discriminate.
  - destruct (assoc "message" ps) as [[]|]; simpl; try discriminate;
      intros H; now injection H as <-.
  - destruct (assoc "message" fs) as [[]|]; simpl; try discriminate;
      intros H; now injection H as <-.
Qed.

End CompletionFacts.

(** X10. With the toggle as the source sets it, the non-streaming handler
    answers with a completion exactly when the model converts to a
    property key, the upstream body has an array under [choices] and every
    choice in it is an object or the like with a [message] that is neither
    absent nor [null]; in every other case the answer is the one error
    body with status 500. *)
Theorem completion_iff `{rt : Runtime}
    (now later : Z) (model : option (value number)) (data : value number) :
  ((exists r,
       NonStream.chat_completions SHOW_REASONING now later model
         (NonStream.Resolved data)
       = {| NonStream.status := 200; NonStream.json := NonStream.Completion r |})
   <-> (ToString_opt model <> Throw
        /\ exists cs props,
             get_own data "choices" = Some (VArr cs props)
             /\ assoc "map" props = None
             /\ Forall (fun c => Lines.usable_choice c = true) cs))
  /\ ((forall r,
          NonStream.chat_completions SHOW_REASONING now later model
            (NonStream.Resolved data)
          <> {| NonStream.status := 200;
                NonStream.json := NonStream.Completion r |}) ->
      NonStream.chat_completions SHOW_REASONING now later model
        (NonStream.Resolved data)
      = NonStream.proxy_error).
Proof.
  unfold SHOW_REASONING. split.
  - split.
    + intros [r H]. unfold NonStream.chat_completions in H.
      destruct (ToString_opt model) as [key|] eqn:Ek; [|discriminate H].
      split; [discriminate|].
      rewrite bind_ok in H.
      destruct (NonStream.openaiResponse false now later model data)
        as [r'|] eqn:Eo; [|discriminate H].
      unfold NonStream.openaiResponse in Eo.
      destruct data as [| | | |es ps|fs]; simpl in Eo; try discriminate Eo.
      * destruct (assoc "choices" ps) as [[| | | |cs props|]|] eqn:Ec;
          simpl in Eo; try discriminate Eo.
        destruct (assoc "map" props) eqn:Emap; [discriminate Eo|].
        destruct (mapM _ cs) as [outs|] eqn:Em; [|discriminate Eo].
        exists cs, props. repeat split; try assumption.
        assert (Hall : exists l', mapM (NonStream.transcode_choice false) cs
                                  = Ok l') by now exists outs.
        apply mapM_ok_iff in Hall.
        eapply Forall_impl; [|exact Hall]. intros c. apply transcode_choice_off.
      * destruct (assoc "choices" fs) as [[| | | |cs props|]|] eqn:Ec;
          simpl in Eo; try discriminate Eo.
        destruct (assoc "map" props) eqn:Emap; [discriminate Eo|].
        destruct (mapM _ cs) as [outs|] eqn:Em; [|discriminate Eo].
        exists cs, props. repeat split; try assumption.
        assert (Hall : exists l', mapM (NonStream.transcode_choice false) cs
                                  = Ok l') by now exists outs.
        apply mapM_ok_iff in Hall.
        eapply Forall_impl; [|exact Hall]. intros c. apply transcode_choice_off.
    + intros [Hk [cs [props [Hc [Hmap Hall]]]]].
      assert (Hm : exists outs, mapM (NonStream.transcode_choice false) cs
                                = Ok outs).
      { apply mapM_ok_iff. eapply Forall_impl; [|exact Hall].
        intros c. apply transcode_choice_off. }
      destruct Hm as [outs Hm].
      unfold NonStream.chat_completions.
      destruct (ToString_opt model) as [key|]; [|contradiction].
      rewrite bind_ok. unfold NonStream.openaiResponse.
      assert (Hg : forall name, get (Some data) name = Ok (get_own data name)).
      { intros name. destruct data; try reflexivity.
        simpl in Hc. discriminate Hc. }
      rewrite !Hg, Hc, bind_ok. simpl NonStream.map_call.
      rewrite Hmap, Hm, !bind_ok. eexists. reflexivity.
  - intros H. unfold NonStream.chat_completions in H |- *.
    destruct (ToString_opt model) as [key|]; [|reflexivity].
    rewrite bind_ok in H |- *.
    destruct (NonStream.openaiResponse false now later model data) as [r|];
      [|reflexivity].
    now destruct (H r).
Qed.

(** X11. With the toggle off a completion carries, for each choice, the
    upstream message's [content] as it is, whatever the message holds as
    reasoning. *)
Theorem completion_content_verbatim `{rt : Runtime}
    (now later : Z) (model : option (value number)) (data : value number)
    (r : NonStream.ChatResponse) :
  NonStream.chat_completions false now later model (NonStream.Resolved data)
  = {| NonStream.status := 200; NonStream.json := NonStream.Completion r |} ->
  exists cs props,
    get_own data "choices" = Some (VArr cs props)
    /\ Forall2
         (fun c o =>
            NonStream.content (NonStream.message o)
            = get_opt (get_own c "message") "content")
         cs (NonStream.choices r).
Proof.
  intros H. apply chat_completions_resolved in H.
  unfold NonStream.openaiResponse in H.
  assert (Hd : data <> VNull) by (intros ->; simpl in H; discriminate H).
  destruct (get_some data "choices" Hd) as [E1 _].
  destruct (get_some data "usage" Hd) as [E2 _].
  rewrite E1, E2, bind_ok in H.
  destruct (get_own data "choices") as [[| | | |cs props|]|] eqn:Ec;
    try (simpl in H; discriminate H).
  unfold NonStream.map_call in H.
  destruct (assoc "map" props); [simpl in H; discriminate H|].
  destruct (mapM _ cs) as [outs|] eqn:Em; [|simpl in H; discriminate H].
  rewrite !bind_ok in H. injection H as <-. simpl.
  exists cs, props. split; [reflexivity|].
  eapply Forall2_impl; [|exact (mapM_ok _ _ _ _ _ Em)].
  intros c o. apply transcode_choice_off_content.
Qed.

Lemma completion_content_verbatim_witness :
  exists (cs : list (value Z)) (props : list (string * value Z)),
    get_own Fixture.one_choice_body "choices" = Some (VArr cs props)
    /\ Forall2
         (fun c o =>
            NonStream.content (rt := Fixture.runtime) (NonStream.message o)
            = get_opt (get_own c "message") "content")
         cs (NonStream.choices Fixture.one_choice_response).
Proof.
  apply (completion_content_verbatim (rt := Fixture.runtime)
           1700000000123%Z 1700000000124%Z (Some (VStr "gpt-4"))
           Fixture.one_choice_body Fixture.one_choice_response).
  reflexivity.
Defined.

(** X12. Under the reasoning toggle the two paths disagree on content
    that is not there.  For an object with a non-empty reasoning text and
    no [content], the streaming path, read as a delta, gives the wrapped
    reasoning followed by nothing; the non-streaming path, read as a
    message, gives it followed by the word [undefined] (by [null] when the
    content is [null]), since line 258 has no default for it. *)
Theorem absent_content_under_toggle `{rt : Runtime}
    (m c : value number) (r : string) :
  get_own m "reasoning_content" = Some (VStr r) ->
  r <> "" ->
  get_own c "message" = Some m ->
  (nullish (get_own m "content") = true ->
   Stream.merge true m = Ok (VStr (Stream.think r "")))
  /\ (get_own m "content" = None ->
      NonStream.message_content true c
      = Ok (Some (VStr (Stream.think r "undefined"))))
  /\ (get_own m "content" = Some VNull ->
      NonStream.message_content true c
      = Ok (Some (VStr (Stream.think r "null")))).
Proof.
  intros Hr Hne Hm.
  assert (Hn : m <> VNull) by (intros ->; discriminate Hr).
  destruct r as [|a r]; [contradiction|].
  split; [|split].
  - intros Hc. unfold Stream.merge. rewrite Hr. simpl.
    destruct (get_own m "content") as [[]|]; simpl in Hc |- *;
      try discriminate Hc; reflexivity.
  - intros Hc. unfold NonStream.message_content. rewrite Hm.
    destruct (get_some m "reasoning_content" Hn) as [E1 E2].
    destruct (get_some m "content" Hn) as [E3 _].
    rewrite E2, E1, E3, Hr, Hc. reflexivity.
  - intros Hc. unfold NonStream.message_content. rewrite Hm.
    destruct (get_some m "reasoning_content" Hn) as [E1 E2].
    destruct (get_some m "content" Hn) as [E3 _].
    rewrite E2, E1, E3, Hr, Hc. reflexivity.
Qed.

Lemma absent_content_under_toggle_witness :
  NonStream.message_content (rt := Fixture.runtime) true Samples.silent_choice
  = Ok (Some (VStr ("<think>why</think>" ++ nl ++ nl ++ "undefined")))
  /\ Stream.merge (rt := Fixture.runtime) true
       (VObj [("reasoning_content", VStr "why")])
     = Ok (VStr ("<think>why</think>" ++ nl ++ nl)).
Proof.
  destruct (absent_content_under_toggle (rt := Fixture.runtime)
              (VObj [("reasoning_content", VStr "why")])
              Samples.silent_choice "why")
    as [Hs [Hn _]]; try reflexivity; try discriminate.
  split; [now apply Hn|now apply Hs].
Defined.

(** ** The table, the listing and the request *)

Section TableFacts.

Import ModelMapper.

Lemma assoc_In (A : Type) (k : string) (v : A) (fs : list (string * A)) :
  assoc k fs = Some v -> In (k, v) fs.
Proof.
  induction fs as [|[k' v'] fs IH]; simpl; [discriminate|].
  destruct (String.eqb k k') eqn:E.
  - apply String.eqb_eq in E. subst k'. intros H. injection H as <-. now left.
  - intros H. right. now apply IH.
Qed.

(** A registered name gets its own identifier, which is not the
    fallback. *)
Lemma nimModel_of_entry (model upstream : string) :
  In (model, upstream) MODEL_MAPPING ->
  nimModel model = Identifier upstream /\ upstream <> FALLBACK_MODEL.
Proof.
  unfold MODEL_MAPPING. simpl. intros H.
  repeat (destruct H as [H|H];
          [injection H as <- <-; split; [reflexivity|discriminate]|]).
  contradiction.
Qed.

End TableFacts.

(** X13. The lookup gives an identifier other than the fallback exactly
    for the entries of the table: a registered name always gets its own
    upstream identifier, and nothing else gets one of them. *)
Theorem nimModel_entries (model upstream : string) :
  In (model, upstream) ModelMapper.MODEL_MAPPING
  <-> (ModelMapper.nimModel model = ModelMapper.Identifier upstream
       /\ upstream <> ModelMapper.FALLBACK_MODEL).
Proof.
  split.
  - apply nimModel_of_entry.
  - intros [H Hf]. unfold ModelMapper.nimModel, ModelMapper.resolve,
      ModelMapper.lookup in H.
    destruct (assoc model ModelMapper.MODEL_MAPPING) as [s|] eqn:E.
    + apply assoc_In in E. destruct s as [|a s].
      * injection H as <-. contradiction.
      * now injection H as <-.
    + destruct (ModelMapper.mem model ModelMapper.Object_prototype);
        [discriminate H|]. injection H as <-. contradiction.
Qed.

(** X14. The listing has one entry for each key of the table, in the
    table's order and without repetition, each tagged as a model of the
    proxy; and every name it lists is one the lookup resolves to that
    name's own upstream identifier, never to the fallback. *)
Theorem listing_matches_table :
  map Listing.id Listing.data = map fst ModelMapper.MODEL_MAPPING
  /\ NoDup (map Listing.id Listing.data)
  /\ Forall (fun e =>
               Listing.object e = "model"
               /\ Listing.owned_by e = "nvidia-nim-proxy"
               /\ exists upstream,
                    In (Listing.id e, upstream) ModelMapper.MODEL_MAPPING
                    /\ ModelMapper.nimModel (Listing.id e)
                       = ModelMapper.Identifier upstream
                    /\ upstream <> ModelMapper.FALLBACK_MODEL)
            Listing.data.
Proof.
  split; [reflexivity|]. split.
  - unfold Listing.data, Listing.keys, ModelMapper.MODEL_MAPPING. simpl.
    repeat (constructor;
            [simpl; intros H;
             repeat (destruct H as [H|H]; [discriminate H|]); exact H|]).
    constructor.
  - unfold Listing.data, Listing.keys. rewrite Forall_map, Forall_map.
    apply Forall_forall. intros [k v] Hin. simpl.
    repeat split. exists v. split; [exact Hin|].
    now apply nimModel_of_entry.
Qed.

Section HandlerFacts.

Import Handler.
Context {rt : Runtime}.
Variables (show thinking : bool) (t0 m0 : number).
Variable post : nimRequest -> string -> reply.

Local Abbreviation jsvalue := (value number).

Lemma chat_completions_rejected (now later : Z) (model : option jsvalue) :
  NonStream.chat_completions show now later model NonStream.Rejected
  = NonStream.proxy_error.
Proof.
  unfold NonStream.chat_completions. now destruct (ToString_opt model).
Qed.

(** The handler once the body has been taken apart and the request built. *)
Lemma chat_completions_built (now later : Z) (body : option jsvalue)
    (f : fields) (req : nimRequest) :
  destructure body = Ok f ->
  build thinking t0 m0 f = Ok req ->
  chat_completions show thinking t0 m0 post now later body
  = if NonStream.truthy (stream f) then
      match post req (responseType f) with
      | Rejected => Answered NonStream.proxy_error
      | Resolved _ events =>
          Streamed stream_headers (Stream.run show events)
      end
    else
      Answered (NonStream.chat_completions show now later (model f)
                  (as_upstream (post req (responseType f)))).
Proof.
  intros Hd Hb. unfold chat_completions. now rewrite Hd, bind_ok, Hb, bind_ok.
Qed.

End HandlerFacts.

(** X15. In the request sent upstream a [temperature] or [max_tokens]
    that the caller gave is passed as given, a zero or any other falsy
    value included; the default takes its place only when the caller gave
    none or gave [null].  The [messages] go through untouched, and the
    thinking directive is there exactly under its toggle. *)
Theorem request_defaults `{rt : Runtime}
    (thinking : bool) (t0 m0 : number)
    (f : Handler.fields) (req : Handler.nimRequest) :
  Handler.build thinking t0 m0 f = Ok req ->
  (forall t, Handler.temperature f = Some t -> t <> VNull ->
             Handler.nim_temperature req = t)
  /\ (nullish (Handler.temperature f) = true ->
      Handler.nim_temperature req = VNum t0)
  /\ (forall m, Handler.max_tokens f = Some m -> m <> VNull ->
                Handler.nim_max_tokens req = m)
  /\ (nullish (Handler.max_tokens f) = true ->
      Handler.nim_max_tokens req = VNum m0)
  /\ Handler.nim_messages req = Handler.messages f
  /\ (Handler.extra_body req = None <-> thinking = false).
Proof.
  unfold Handler.build. intros H.
  destruct (ToString_opt (Handler.model f)); [|discriminate H].
  rewrite bind_ok in H. injection H as <-. simpl.
  repeat split.
  - intros t -> Ht. now destruct t.
  - intros Hn. now destruct (Handler.temperature f) as [[]|].
  - intros m -> Hm. now destruct m.
  - intros Hn. now destruct (Handler.max_tokens f) as [[]|].
  - now destruct thinking.
  - now intros ->.
Qed.

Lemma request_defaults_witness :
  Handler.destructure (rt := Fixture.runtime) (Some Samples.cold_body)
  = Ok Samples.cold_fields
  /\ exists req,
       Handler.build (rt := Fixture.runtime) ENABLE_THINKING_MODE
         Samples.unused_temperature Samples.max_tokens_default
         Samples.cold_fields = Ok req
       /\ Handler.nim_temperature req = VNum 0%Z
       /\ Handler.nim_max_tokens req = VNum 4096%Z
       /\ Handler.extra_body req = None.
Proof.
  split; [reflexivity|]. eexists. split; [reflexivity|].
  destruct (request_defaults (rt := Fixture.runtime) ENABLE_THINKING_MODE
              Samples.unused_temperature Samples.max_tokens_default
              Samples.cold_fields _ eq_refl) as [Ht [_ [_ [Hm [_ He]]]]].
  split; [|split].
  - apply Ht; [reflexivity|discriminate].
  - apply Hm. reflexivity.
  - now apply He.
Defined.

(** X16. The three readings of the caller's [stream] agree: the flag sent
    upstream is true exactly when the response is asked for as a stream,
    and exactly then the handler opens the event stream (or answers 500
    when the call fails); otherwise it sends the one JSON answer of the
    non-streaming path. *)
Theorem stream_flag_agrees `{rt : Runtime}
    (show thinking : bool) (t0 m0 : number)
    (post : Handler.nimRequest -> string -> Handler.reply)
    (now later : Z) (body : option (value number))
    (f : Handler.fields) (req : Handler.nimRequest) :
  Handler.destructure body = Ok f ->
  Handler.build thinking t0 m0 f = Ok req ->
  (Handler.nim_stream req = true <-> Handler.responseType f = "stream")
  /\ (Handler.nim_stream req = false <-> Handler.responseType f = "json")
  /\ (Handler.nim_stream req = true ->
      Handler.chat_completions show thinking t0 m0 post now later body
      = match post req "stream" with
        | Handler.Rejected => Handler.Answered NonStream.proxy_error
        | Handler.Resolved _ events =>
            Handler.Streamed Handler.stream_headers (Stream.run show events)
        end)
  /\ (Handler.nim_stream req = false ->
      Handler.chat_completions show thinking t0 m0 post now later body
      = Handler.Answered
          (NonStream.chat_completions show now later (Handler.model f)
             (Handler.as_upstream (post req "json")))).
Proof.
  intros Hd Hb.
  rewrite (chat_completions_built show thinking t0 m0 post now later body
             f req Hd Hb).
  unfold Handler.build in Hb.
  destruct (ToString_opt (Handler.model f)); [|discriminate Hb].
  rewrite bind_ok in Hb. injection Hb as <-. simpl Handler.nim_stream.
  unfold Handler.responseType.
  destruct (NonStream.truthy (Handler.stream f)); repeat split;
    try reflexivity; try discriminate; intros H; discriminate H.
Qed.

Lemma stream_flag_agrees_witness :
  exists st,
    Handler.chat_completions (rt := Fixture.runtime) SHOW_REASONING
      ENABLE_THINKING_MODE Samples.unused_temperature
      Samples.max_tokens_default Samples.post
      1700000000123%Z 1700000000124%Z (Some Samples.streaming_body)
    = Handler.Streamed Handler.stream_headers st
    /\ Stream.ended st = true
    /\ length (Stream.written st) = 1.
Proof.
  pose proof (stream_flag_agrees (rt := Fixture.runtime) SHOW_REASONING
                ENABLE_THINKING_MODE Samples.unused_temperature
                Samples.max_tokens_default Samples.post
                1700000000123%Z 1700000000124%Z (Some Samples.streaming_body)
                _ _ eq_refl eq_refl) as [_ [_ [H _]]].
  eexists. split.
  - rewrite (H eq_refl). reflexivity.
  - split; reflexivity.
Defined.

(** X17. Whatever goes wrong before the first byte is answered with the
    one error body and status 500, on both paths: a [req.body] that is
    [undefined] or [null], and an upstream call that fails. *)
Theorem failure_before_first_byte `{rt : Runtime}
    (show thinking : bool) (t0 m0 : number)
    (post : Handler.nimRequest -> string -> Handler.reply)
    (now later : Z) (body : option (value number)) :
  (nullish body = true ->
   Handler.chat_completions show thinking t0 m0 post now later body
   = Handler.Answered NonStream.proxy_error)
  /\ ((forall req ty, post req ty = Handler.Rejected) ->
      Handler.chat_completions show thinking t0 m0 post now later body
      = Handler.Answered NonStream.proxy_error).
Proof.
  split.
  - intros H. unfold Handler.chat_completions, Handler.destructure.
    now destruct body as [[]|].
  - intros H. unfold Handler.chat_completions.
    destruct (Handler.destructure body) as [f|]; [|reflexivity].
    rewrite bind_ok.
    destruct (Handler.build thinking t0 m0 f) as [req|]; [|reflexivity].
    rewrite bind_ok, H. simpl Handler.as_upstream.
    rewrite chat_completions_rejected.
    now destruct (NonStream.truthy (Handler.stream f)).
Qed.

Lemma failure_before_first_byte_witness :
  Handler.chat_completions (rt := Fixture.runtime) SHOW_REASONING
    ENABLE_THINKING_MODE Samples.unused_temperature
    Samples.max_tokens_default Samples.post
    1700000000123%Z 1700000000124%Z None
  = Handler.Answered NonStream.proxy_error
  /\ Handler.chat_completions (rt := Fixture.runtime) SHOW_REASONING
       ENABLE_THINKING_MODE Samples.unused_temperature
       Samples.max_tokens_default (fun _ _ => Handler.Rejected)
       1700000000123%Z 1700000000124%Z (Some Samples.streaming_body)
     = Handler.Answered NonStream.proxy_error.
Proof.
  split.
  - destruct (failure_before_first_byte (rt := Fixture.runtime)
                SHOW_REASONING ENABLE_THINKING_MODE
                Samples.unused_temperature Samples.max_tokens_default
                Samples.post 1700000000123%Z 1700000000124%Z None)
      as [H _].
    apply H. reflexivity.
  - destruct (failure_before_first_byte (rt := Fixture.runtime)
                SHOW_REASONING ENABLE_THINKING_MODE
                Samples.unused_temperature Samples.max_tokens_default
                (fun _ _ => Handler.Rejected)
                1700000000123%Z 1700000000124%Z
                (Some Samples.streaming_body)) as [_ H].
    apply H. reflexivity.
Defined.

(* ------------------------------------------------------------------ *)
(** ** The event that is written *)

Section EmissionFacts.

Import JSString Stream.
Context {rt : Runtime}.

Local Abbreviation jsvalue := (value number).

(** Only an object takes the assignment of line 234, and it then holds
    what was assigned. *)
Lemma set_own_ok (choice d choice' : jsvalue) :
  set_own (Some choice) "delta" d = Ok choice' ->
  choice <> VNull /\ get_own choice' "delta" = Some d.
Proof.
  destruct choice; simpl; try discriminate; intros H; injection H as <-;
    (split; [discriminate|]); simpl; apply assoc_set_same.
Qed.

(** Line 225 on an event with a first choice. *)
Lemma read_delta_first (parsed cs choice : jsvalue) :
  get_own parsed "choices" = Some cs ->
  get_first cs = Some choice ->
  choice <> VNull ->
  read_delta parsed = Ok (coalesce (get_own choice "delta") (VObj [])).
Proof.
  intros Hcs Hf Hn.
  assert (Hp : parsed <> VNull) by (intros ->; discriminate Hcs).
  assert (Hc : cs <> VNull) by (intros ->; discriminate Hf).
  unfold read_delta.
  destruct (get_some parsed "choices" Hp) as [E1 _]. rewrite E1, bind_ok, Hcs.
  destruct (first_some cs Hc) as [_ E2]. rewrite E2, Hf.
  destruct (get_some choice "delta" Hn) as [_ E3]. now rewrite E3.
Qed.

(** Line 234 on an event with a first choice that is an object. *)
Lemma assign_delta_exact (parsed cs choice choice' d : jsvalue) :
  get_own parsed "choices" = Some cs ->
  get_first cs = Some choice ->
  set_own (Some choice) "delta" d = Ok choice' ->
  assign_delta parsed d = Ok (Lines.with_first_choice parsed cs choice').
Proof.
  intros Hcs Hf Hs.
  assert (Hp : parsed <> VNull) by (intros ->; discriminate Hcs).
  assert (Hc : cs <> VNull) by (intros ->; discriminate Hf).
  unfold assign_delta.
  destruct (get_some parsed "choices" Hp) as [E1 _]. rewrite E1, bind_ok, Hcs.
  destruct (first_some cs Hc) as [E2 _]. rewrite E2, bind_ok, Hf, Hs.
  reflexivity.
Qed.

(** The [try] block on such an event. *)
Lemma transcode_exact (show : bool) (line : string)
    (parsed cs choice choice' content : jsvalue) :
  JSON_parse (slice 5 line) = Some parsed ->
  get_own parsed "choices" = Some cs ->
  get_first cs = Some choice ->
  merge show (coalesce (get_own choice "delta") (VObj [])) = Ok content ->
  set_own (Some choice) "delta" (VObj [("content", content)]) = Ok choice' ->
  transcode show line
  = Ok (Lines.event_text (Lines.with_first_choice parsed cs choice')).
Proof.
  intros Hp Hcs Hf Hm Hs.
  destruct (set_own_ok _ _ _ Hs) as [Hn _].
  unfold transcode.
  rewrite Hp, (read_delta_first parsed cs choice Hcs Hf Hn), bind_ok, Hm,
    bind_ok, (assign_delta_exact parsed cs choice choice' _ Hcs Hf Hs).
  reflexivity.
Qed.

(** And what a successful run of the [try] block has done, in the same
    terms. *)
Lemma transcode_ok_exact (show : bool) (line out : string) :
  transcode show line = Ok out ->
  exists parsed cs choice choice' content,
    JSON_parse (slice 5 line) = Some parsed
    /\ get_own parsed "choices" = Some cs
    /\ get_first cs = Some choice
    /\ merge show (coalesce (get_own choice "delta") (VObj [])) = Ok content
    /\ set_own (Some choice) "delta" (VObj [("content", content)])
       = Ok choice'
    /\ out = Lines.event_text (Lines.with_first_choice parsed cs choice').
Proof.
  intros Ht.
  destruct (transcode_ok show line out Ht)
    as [parsed [delta [content [parsed' [Hp [Hr [Hm [Ha Ho]]]]]]]].
  destruct (assign_delta_shape parsed _ parsed' Ha)
    as [cs [choice [choice' [Hcs [Hf [Hs Hq]]]]]].
  destruct (set_own_ok _ _ _ Hs) as [Hn _].
  rewrite (read_delta_first parsed cs choice Hcs Hf Hn) in Hr.
  injection Hr as <-.
  exists parsed, cs, choice, choice', content.
  repeat split; try assumption.
  rewrite Ho, Hq. reflexivity.
Qed.

(** A line the loop hands to the [try] statement and for which the block
    runs to its end: its text comes after what was written and before
    what the lines after it write. *)
Lemma process_writes (show : bool) (line out : string)
    (rest written : list string) :
  startsWith "data:" line = true ->
  includes "[DONE]" line = false ->
  transcode show line = Ok out ->
  process show (line :: rest) written
  = (written ++ out :: process show rest [])%list.
Proof.
  intros Hp Hd Ht.
  rewrite process_parsed_line by assumption.
  unfold try_catch. rewrite Ht, process_from, <- app_assoc. reflexivity.
Qed.

End EmissionFacts.



(** C5. Whenever the loop hands a ["data:"] line to the [try] statement,
    the payload parses to an event with a first choice that takes the
    assignment, and the merge gives [content], the loop writes one text
    for the line, after what was written before: ["data: "], the
    serialization of the event and an empty line, where the event is the
    parsed one in which the first choice's [delta] has been replaced by
    the object with the single field [content] (the other members of the
    event, the other choices and the other fields of the first choice as
    they were; the old delta, its reasoning field included, is gone).  And
    the loop writes nothing else: each text it writes is the marker event
    or the text of one of the lines, made in this way. *)
Theorem event_rewritten_and_written `{rt : Runtime} (show : bool) :
  (forall (line : string) (parsed cs choice choice' content : value number)
          (rest written : list string),
      JSString.startsWith "data:" line = true ->
      JSString.includes "[DONE]" line = false ->
      JSON_parse (JSString.slice 5 line) = Some parsed ->
      get_own parsed "choices" = Some cs ->
      get_first cs = Some choice ->
      Stream.merge show (coalesce (get_own choice "delta") (VObj []))
      = Ok content ->
      set_own (Some choice) "delta" (VObj [("content", content)])
      = Ok choice' ->
      Stream.process show (line :: rest) written
      = (written
         ++ Lines.event_text (Lines.with_first_choice parsed cs choice')
         :: Stream.process show rest [])%list
      /\ Shape.first_delta (Lines.with_first_choice parsed cs choice')
         = Ok (Some (VObj [("content", content)]))
      /\ (forall fs, choice = VObj fs ->
                     choice' = Lines.with_content fs content))
  /\ (forall lines written : list string,
         exists outs,
           Stream.process show lines written = (written ++ outs)%list
           /\ Forall
                (fun out =>
                   out = Stream.DONE_event
                   \/ exists line parsed cs choice choice' content,
                        In line lines
                        /\ JSON_parse (JSString.slice 5 line) = Some parsed
                        /\ get_own parsed "choices" = Some cs
                        /\ get_first cs = Some choice
                        /\ Stream.merge show
                             (coalesce (get_own choice "delta") (VObj []))
                           = Ok content
                        /\ set_own (Some choice) "delta"
                             (VObj [("content", content)])
                           = Ok choice'
                        /\ out = Lines.event_text
                                   (Lines.with_first_choice parsed cs choice'))
                outs).
Proof.
  split.
  - intros line parsed cs choice choice' content rest written
      Hp Hd He Hcs Hf Hm Hs.
    split; [|split].
    + apply process_writes; try assumption.
      now apply (transcode_exact show line parsed cs choice choice' content).
    + apply (assign_delta_first_delta parsed).
      now apply (assign_delta_exact parsed cs choice choice').
    + intros fs ->. simpl in Hs. now injection Hs as <-.
  - intros lines written.
    destruct (process_outputs show lines written) as [outs [E F]].
    exists outs. split; [exact E|].
    eapply Forall_impl; [|exact F]. simpl.
    intros out [H|[line [Hin Ht]]]; [now left|right].
    destruct (transcode_ok_exact show line out Ht)
      as [parsed [cs [choice [choice' [content H]]]]].
    exists line, parsed, cs, choice, choice', content.
    split; [exact Hin|exact H].
Qed.

(** An event with two choices, and fields next to the delta, among other
    lines. *)
Lemma event_rewritten_and_written_witness :
  Stream.process (rt := Fixture.runtime) SHOW_REASONING
    [Fixture.data_line Fixture.hello_event; ": ping"] ["earlier"]
  = ["earlier";
     Lines.event_text (rt := Fixture.runtime)
       (VObj [("id", VStr "e4");
              ("choices",
               VArr [VObj [("delta", VObj [("content", VStr "Hello")]);
                           ("finish_reason", VNull)]] [])])]
  /\ Shape.first_delta (rt := Fixture.runtime)
       (VObj [("id", VStr "e4");
              ("choices",
               VArr [VObj [("delta", VObj [("content", VStr "Hello")]);
                           ("finish_reason", VNull)]] [])])
     = Ok (Some (VObj [("content", VStr "Hello")])).
Proof.
  destruct (event_rewritten_and_written (rt := Fixture.runtime)
              SHOW_REASONING) as [H _].
  destruct (H (Fixture.data_line Fixture.hello_event) Fixture.hello_event
              (VArr [VObj [("delta",
                            VObj [("role", VStr "assistant");
                                  ("content", VStr "Hello");
                                  ("reasoning_content", VStr "ignored")]);
                           ("finish_reason", VNull)]] [])
              (VObj [("delta", VObj [("role", VStr "assistant");
                                     ("content", VStr "Hello");
                                     ("reasoning_content", VStr "ignored")]);
                     ("finish_reason", VNull)])
              (VObj [("delta", VObj [("content", VStr "Hello")]);
                     ("finish_reason", VNull)])
              (VStr "Hello") [": ping"] ["earlier"]
              eq_refl eq_refl eq_refl eq_refl eq_refl eq_refl eq_refl)
    as [Hw [Hd _]].
  split; [exact Hw|exact Hd].
Defined.

(** C4, at the input where the code departs from it.  The payload of the
    line ["data: x[DONE]"] is not valid JSON and is not the sentinel, yet
    the loop answers the line with the marker event and returns: the
    event on the next line of the chunk, which it writes when it is given
    that line alone, is never written; the test of line 218 looks for the
    text ["[DONE]"] anywhere in the line. *)
Theorem marker_text_in_malformed_line :
  JSString.startsWith "data:" "data: x[DONE]" = true
  /\ JSON_parse (Runtime := Fixture.runtime)
       (JSString.slice 5 "data: x[DONE]") = None
  /\ Shape.sentinel_payload (JSString.slice 5 "data: x[DONE]") = false
  /\ Stream.process (rt := Fixture.runtime) SHOW_REASONING
       ["data: x[DONE]"; Fixture.data_line Fixture.late_event] ["earlier"]
     = ["earlier"; Stream.DONE_event]
  /\ Stream.process (rt := Fixture.runtime) SHOW_REASONING
       [Fixture.data_line Fixture.late_event] ["earlier"]
     = ["earlier";
        Lines.event_text (rt := Fixture.runtime)
          (VObj [("choices",
                  VArr [VObj [("index", VNum 0%Z);
                              ("delta", VObj [("content", VStr "late")])]]
                       [])])]
  /\ Stream.written
       (Stream.run (rt := Fixture.runtime) SHOW_REASONING
          [Fixture.data ("data: x[DONE]" ++ nl
                         ++ Fixture.data_line Fixture.late_event ++ nl)])
     = [Stream.DONE_event].
Proof. repeat split. Qed.

(** C9, at the input where the code departs from it.  The payload of the
    line [data: {"id":"[DONE]"}] is valid JSON, an event without
    [choices], and is not the sentinel; the loop does not treat it as a
    no-op: it answers the line with the marker event and returns, and the
    event on the next line of the chunk is never written.  The same event
    with another [id] writes nothing and the next line is processed. *)
Theorem marker_text_in_event_without_choices :
  JSString.startsWith "data:" (Fixture.data_line Fixture.marker_id_event)
  = true
  /\ JSON_parse (Runtime := Fixture.runtime)
       (JSString.slice 5 (Fixture.data_line Fixture.marker_id_event))
     = Some Fixture.marker_id_event
  /\ Shape.no_choices (rt := Fixture.runtime) Fixture.marker_id_event = true
  /\ Shape.sentinel_payload
       (JSString.slice 5 (Fixture.data_line Fixture.marker_id_event))
     = false
  /\ Stream.process (rt := Fixture.runtime) SHOW_REASONING
       [Fixture.data_line Fixture.marker_id_event;
        Fixture.data_line Fixture.late_event] ["earlier"]
     = ["earlier"; Stream.DONE_event]
  /\ Stream.process (rt := Fixture.runtime) SHOW_REASONING
       [Fixture.data_line Fixture.keepalive_event;
        Fixture.data_line Fixture.late_event] ["earlier"]
     = ["earlier";
        Lines.event_text (rt := Fixture.runtime)
          (VObj [("choices",
                  VArr [VObj [("index", VNum 0%Z);
                              ("delta", VObj [("content", VStr "late")])]]
                       [])])]
  /\ Stream.written
       (Stream.run (rt := Fixture.runtime) SHOW_REASONING
          [Fixture.data (Fixture.data_line Fixture.marker_id_event ++ nl
                         ++ Fixture.data_line Fixture.late_event ++ nl)])
     = [Stream.DONE_event].
Proof. repeat split. Qed.
